(** * giga_auto_qc: the metric and decision pipeline of [assessments.py]

    A shallow embedding of [src/giga_auto_qc/assessments.py].

    - Python [float] and numpy [float64] are Rocq's primitive binary64
      floats, so comparisons and divisions are the IEEE ones of the
      source (a missing value is a NaN).
    - numpy [int64] counts are [Z] with the wrap-around written out.
    - Exceptions are an error monad, [outcome].
    - A pandas DataFrame is a record of row labels and named columns of
      cells; the functions that assign into an argument frame return the
      final state of that argument next to their result.
    - What lives outside the module (the BIDS layout, templateflow, the
      nifti reader, nilearn's resampling and mask intersection, numpy's
      float reductions) is a section variable.
    - The status lines printed on the way are left out; of the summary
      line of [quality_accessments] the count is kept, since computing it
      can raise. *)

From Stdlib Require Import ZArith Floats Uint63.
From stdpp Require Import base option list strings sorting gmap.

Set Default Proof Using "Type".
#[local] Set Warnings "-inexact-float".
Local Open Scope Z_scope.

(** ** Exceptions *)

Inductive exn : Type :=
  | KeyError (key : string)
  | IndexError
  | ValueError
  | TypeError
  | ZeroDivisionError
  | InvalidIndexError.

Inductive outcome (A : Type) : Type :=
  | Ok (a : A)
  | Raise (e : exn).
Arguments Ok {A} a.
Arguments Raise {A} e.

#[global] Instance outcome_ret : MRet outcome := fun A a => Ok a.
#[global] Instance outcome_bind : MBind outcome := fun A B k m =>
  match m with
  | Ok a => k a
  | Raise e => Raise e
  end.

(** A [for] loop that threads the variables its body assigns. *)
Fixpoint for_each {M : Type -> Type} `{!MBind M, !MRet M} {A S : Type}
    (body : A -> S -> M S) (l : list A) (s : S) : M S :=
  match l with
  | [] => mret s
  | x :: l' => s' ← body x s; for_each body l' s'
  end.

Definition raises {A : Type} (m : outcome A) : Prop :=
  match m with
  | Ok _ => False
  | Raise _ => True
  end.

(** ** The module constants *)

Definition template : string := "MNI152NLin2009cAsym".

Module qulaity_control_standards.
Definition mean_fd : float := 0.55%float.
Definition scrubbing_fd : float := 0.2%float.
Definition proportion_kept : float := 0.5%float.
Definition anatomical_dice : float := 0.99%float.
Definition functional_dice : float := 0.89%float.
End qulaity_control_standards.

(** ** numpy scalars and arrays *)

(** [np.int64] arithmetic wraps modulo 2^64. *)
Definition wrap64 (z : Z) : Z := (z + 2 ^ 63) mod 2 ^ 64 - 2 ^ 63.

(** The conversion of an [int64] to [float64] that true division applies
    to its operands (round to nearest even). *)
Definition float_of_int64 (z : Z) : float :=
  if z <? 0 then
    if z =? - 2 ^ 63 then (- (of_uint63 (Uint63.of_Z (2 ^ 62)) * 2))%float
    else (- of_uint63 (Uint63.of_Z (- z)))%float
  else of_uint63 (Uint63.of_Z z).

(** [a / b] on two [int64] scalars: numpy's [true_divide]. *)
Definition true_divide (a b : Z) : float :=
  (float_of_int64 a / float_of_int64 b)%float.

(** [x.astype(bool)] on one float: everything but (signed) zero is true,
    a NaN included. *)
Definition astype_bool (x : float) : bool := negb (x =? 0)%float.

(** [np.sum] of a boolean array: the number of true entries, an [int64]. *)
Definition np_sum (a : list bool) : Z :=
  wrap64 (Z.of_nat (length (filter (fun b => b = true) a))).

(** A volume: the affine of its grid (4x4, row major), the shape of the
    array and the voxels in C order. *)
Record image : Type := Image {
  affine : list float;
  shape : list nat;
  get_fdata : list float
}.

(** [(a != b).any()] on two affines. *)
Fixpoint ne_any (a b : list float) : bool :=
  match a, b with
  | x :: a', y :: b' => negb (x =? y)%float || ne_any a' b'
  | _, _ => false
  end.

(** [np.logical_and] on two arrays of one shape; numpy refuses operands
    whose shapes it cannot broadcast, and the model refuses every pair of
    unequal shapes. *)
Definition np_logical_and (sa : list nat) (a : list bool)
    (sb : list nat) (b : list bool) : outcome (list bool) :=
  if decide (sa = sb) then Ok (zip_with andb a b) else Raise ValueError.

(** What [load_img] accepts: a path or a volume already in memory. *)
Inductive niimg : Type :=
  | Path (p : string)
  | Nifti (img : image).

Section Volumes.
(** The nifti reader behind [load_img] and nilearn's [resample_to_img]
    with nearest-neighbour interpolation. *)
Variable read_nifti : string -> image.
Variable resample_to_img : image -> image -> image.

Definition load_img (x : niimg) : image :=
  match x with
  | Path p => read_nifti p
  | Nifti img => img
  end.

(** The template mask on the grid of the processed image. *)
Definition on_grid_of (processed_img template_mask : image) : image :=
  if ne_any (affine template_mask) (affine processed_img)
  then resample_to_img template_mask processed_img
  else template_mask.

Definition _dice_coefficient (processed_img template_mask : niimg) : outcome float :=
  let processed_img := load_img processed_img in
  let template_mask := load_img template_mask in
  let template_mask := on_grid_of processed_img template_mask in
  let processed := astype_bool <$> get_fdata processed_img in
  let mask := astype_bool <$> get_fdata template_mask in
  both ← np_logical_and (shape processed_img) processed
                        (shape template_mask) mask;
  let intersection := np_sum both in
  let total_elements := wrap64 (np_sum processed + np_sum mask) in
  Ok (true_divide (wrap64 (2 * intersection)) total_elements).
End Volumes.

(** ** Python strings *)

(** [s.split(sep)] for a non-empty separator: the pieces between the
    occurrences of [sep] found from the left, without overlap. [skip]
    characters of a matched separator are still to be passed and [cur] is
    the piece read so far. *)
Fixpoint split_go (sep : string) (skip : nat) (cur s : string) : list string :=
  match s with
  | EmptyString => [cur]
  | String c s' =>
    match skip with
    | S k => split_go sep k cur s'
    | O =>
      if String.prefix sep s
      then cur :: split_go sep (String.length sep - 1) "" s'
      else split_go sep 0 (cur +:+ String c "") s'
    end
  end.

Definition str_split (sep s : string) : list string := split_go sep 0 "" s.

(** [s.replace(old, new)] for a non-empty [old]: every occurrence, from
    the left, without overlap. *)
Fixpoint replace_go (old new : string) (skip : nat) (s : string) : string :=
  match s with
  | EmptyString => ""
  | String c s' =>
    match skip with
    | S k => replace_go old new k s'
    | O =>
      if String.prefix old s
      then new +:+ replace_go old new (String.length old - 1) s'
      else String c (replace_go old new 0 s')
    end
  end.

Definition str_replace (old new s : string) : string := replace_go old new 0 s.

(** [p in s] on strings. *)
Fixpoint str_contains (p s : string) : bool :=
  match s with
  | EmptyString => String.prefix p s
  | String _ s' => String.prefix p s || str_contains p s'
  end.

(** [l[0]] on a Python list. *)
Definition first {A : Type} (l : list A) : outcome A :=
  match l with
  | x :: _ => Ok x
  | [] => Raise IndexError
  end.

(** [str.split] never returns the empty list, so [[0]] and [[-1]] on its
    result cannot raise. *)
Definition split_first (sep s : string) : string := hd "" (str_split sep s).
Definition split_last (sep s : string) : string := List.last (str_split sep s) "".

(** [Path(p).name]: the final component of a file path. *)
Definition path_name (p : string) : string :=
  List.last (filter (fun c => c <> "") (str_split "/" p)) "".

(** ** Python dicts

    A dict keeps its keys in insertion order; assigning to a key that is
    present keeps the key's place. *)

Abbreviation dict V := (list (string * V)).

Fixpoint dict_get {V : Type} (k : string) (d : dict V) : option V :=
  match d with
  | [] => None
  | (k', v) :: d' => if decide (k' = k) then Some v else dict_get k d'
  end.

Fixpoint dict_set {V : Type} (k : string) (v : V) (d : dict V) : dict V :=
  match d with
  | [] => [(k, v)]
  | (k', v') :: d' =>
    if decide (k' = k) then (k, v) :: d' else (k', v') :: dict_set k v d'
  end.

Definition dict_keys {V : Type} (d : dict V) : list string := d.*1.

(** [d[k]] *)
Definition dict_item {V : Type} (d : dict V) (k : string) : outcome V :=
  match dict_get k d with
  | Some v => Ok v
  | None => Raise (KeyError k)
  end.

(** [d.update(e)] *)
Definition dict_update {V : Type} (d e : dict V) : dict V :=
  foldl (fun d kv => dict_set kv.1 kv.2 d) d e.

(** ** pandas frames *)

(** What a cell of a frame holds. A missing number is [VFloat nan]; a
    missing string is [VNone]. *)
Inductive cell : Type :=
  | VFloat (f : float)
  | VBool (b : bool)
  | VStr (s : string)
  | VNone.

Abbreviation Series := (list cell).

(** Row labels with the name of the index, and the columns in order, each
    with one cell per row. Row labels and column names are unique in the
    frames the pipeline builds (they come from dict keys). *)
Record DataFrame : Type := Frame {
  index_name : option string;
  index : list string;
  columns : dict Series
}.

#[global] Instance DataFrame_inhabited : Inhabited DataFrame :=
  populate (Frame None [] []).

(** [df[col]] on a frame whose column labels are distinct; on a repeated
    label pandas returns a frame, the model the first of the columns. *)
Definition getitem (df : DataFrame) (col : string) : outcome Series :=
  dict_item (columns df) col.

(** [df[col] = s], for a series on the rows of [df]. *)
Definition setitem (df : DataFrame) (col : string) (s : Series) : DataFrame :=
  Frame (index_name df) (index df) (dict_set col s (columns df)).

(** The position of a row label. *)
Fixpoint get_loc (label : string) (labels : list string) : option nat :=
  match labels with
  | [] => None
  | l :: labels' =>
    if decide (l = label) then Some 0%nat else S <$> get_loc label labels'
  end.

(** [df.loc[row, col]] on a frame with unique row labels. *)
Definition loc (df : DataFrame) (row col : string) : outcome cell :=
  s ← getitem df col;
  match get_loc row (index df) with
  | None => Raise (KeyError row)
  | Some i =>
    match s !! i with
    | Some c => Ok c
    | None => Raise (KeyError row)
    end
  end.

(** The union of the inner keys of a dict of dicts, by first appearance. *)
Definition inner_keys {V : Type} (d : dict (dict V)) : list string :=
  foldl (fun acc row => foldl (fun acc k => if decide (k ∈ acc) then acc else acc ++ [k])
                              acc (dict_keys row.2))
        [] d.

(** [pd.DataFrame(d).T] for a dict of dicts: a row per outer key, a column
    per inner key, not-a-number where a row has no such key. *)
Definition DataFrame_T (d : dict (dict cell)) : DataFrame :=
  Frame None (dict_keys d)
        ((fun k => (k, (fun row => default (VFloat nan) (dict_get k row.2)) <$> d))
           <$> inner_keys d).

(** [df.sort_index()]: the rows in ascending order of their labels
    (strings compare byte by byte, as Python compares code points). *)
Definition label_le (a b : string * nat) : Prop := String.le a.1 b.1.
#[global] Instance label_le_dec : RelDecision label_le.
Proof. intros a b. unfold label_le. apply _. Defined.

Definition argsort (labels : list string) : list nat :=
  (merge_sort label_le (zip labels (seq 0 (length labels)))).*2.

Definition take {A : Type} (positions : list nat) (l : list A) : list A :=
  omap (fun i => l !! i) positions.

Definition sort_index (df : DataFrame) : DataFrame :=
  let order := argsort (index df) in
  Frame (index_name df) (take order (index df))
        ((fun c => (c.1, take order c.2)) <$> columns df).

(** [pd.concat((a, b), axis=1)]. Both call sites pass a second frame built
    on the row labels of the first: the labels agree and the columns are
    put side by side, unless the first frame repeats a label, which pandas
    cannot reindex. *)
Definition concat_columns (a b : DataFrame) : outcome DataFrame :=
  if decide (index a = index b)
  then Ok (Frame (if decide (index_name a = index_name b) then index_name a else None)
                 (index a) (columns a ++ columns b))
  else Raise InvalidIndexError.

(** Cells as numbers: a boolean counts as 1 or 0. *)
Definition float_of_bool (b : bool) : float := if b then 1%float else 0%float.

Definition cell_lt (x : float) (c : cell) : outcome cell :=
  match c with
  | VFloat f => Ok (VBool (f <? x)%float)
  | VBool b => Ok (VBool (float_of_bool b <? x)%float)
  | VStr _ | VNone => Raise TypeError
  end.

Definition cell_gt (x : float) (c : cell) : outcome cell :=
  match c with
  | VFloat f => Ok (VBool (x <? f)%float)
  | VBool b => Ok (VBool (x <? float_of_bool b)%float)
  | VStr _ | VNone => Raise TypeError
  end.

(** The product of two numpy scalars: of two booleans, their conjunction. *)
Definition cell_mul (a b : cell) : outcome cell :=
  match a, b with
  | VBool x, VBool y => Ok (VBool (x && y))
  | VFloat x, VFloat y => Ok (VFloat (x * y))
  | VFloat x, VBool y => Ok (VFloat (x * float_of_bool y))
  | VBool x, VFloat y => Ok (VFloat (float_of_bool x * y))
  | _, _ => Raise TypeError
  end.

(** [s < x], [s > x] and [s * t] on series of one frame. *)
Definition series_lt (s : Series) (x : float) : outcome Series := mapM (cell_lt x) s.
Definition series_gt (s : Series) (x : float) : outcome Series := mapM (cell_gt x) s.

Fixpoint series_mul (s t : Series) : outcome Series :=
  match s, t with
  | a :: s', b :: t' =>
    c ← cell_mul a b;
    r ← series_mul s' t';
    Ok (c :: r)
  | _, _ => Ok []
  end.

(** [s.str.split(sep, expand=True)]: a column per token position, as many
    as the longest row has tokens, [None] where a row is shorter. *)
Definition cell_tokens (sep : string) (c : cell) : list string :=
  match c with
  | VStr s => str_split sep s
  | _ => []
  end.

Definition token_cell (tokens : list string) (j : nat) : cell :=
  match tokens !! j with
  | Some t => VStr t
  | None => VNone
  end.

Definition str_split_expand (sep : string) (s : Series) : list Series :=
  let rows := cell_tokens sep <$> s in
  let width := foldr Nat.max 0%nat (length <$> rows) in
  (fun j => (fun tokens => token_cell tokens j) <$> rows) <$> seq 0 width.

(** [s.str.replace(old, new)] with a literal [old]; a missing entry stays
    missing. *)
Definition cell_replace (old new : string) (c : cell) : cell :=
  match c with
  | VStr s => VStr (str_replace old new s)
  | _ => c
  end.

(** [df[keys] = value] for a frame [value] given by its columns. *)
Definition setitem_columns (df : DataFrame) (keys : list string)
    (value : list Series) : outcome DataFrame :=
  if decide (length value = length keys)
  then Ok (foldl (fun df kv => setitem df kv.1 kv.2) df (zip keys value))
  else Raise ValueError.

(** [df.drop(col, axis=1)] *)
Definition drop (df : DataFrame) (col : string) : outcome DataFrame :=
  match dict_get col (columns df) with
  | None => Raise (KeyError col)
  | Some _ =>
    Ok (Frame (index_name df) (index df) (filter (fun c => c.1 <> col) (columns df)))
  end.

(** [df.rename(columns={old: new})] *)
Definition rename_label (old new c : string) : string :=
  if decide (c = old) then new else c.

Definition rename (df : DataFrame) (old new : string) : DataFrame :=
  Frame (index_name df) (index df)
        ((fun c => (rename_label old new c.1, c.2)) <$> columns df).

(** ** The store of frames

    The two functions that receive frames assign into them. A frame passed
    as an argument is a reference into a store; a computation takes the
    store and returns it with its result or its exception. What was
    assigned before an exception stays assigned. *)

Definition ref : Type := nat.
Abbreviation store := (gmap nat DataFrame).
Definition M (A : Type) : Type := store -> store * outcome A.

#[global] Instance M_ret : MRet M := fun A a σ => (σ, Ok a).
#[global] Instance M_bind : MBind M := fun A B k m σ =>
  match m σ with
  | (σ', Ok a) => k a σ'
  | (σ', Raise e) => (σ', Raise e)
  end.

Definition lift {A : Type} (o : outcome A) : M A := fun σ => (σ, o).
Definition deref (r : ref) : M DataFrame := fun σ => (σ, Ok (σ !!! r)).
Definition assign (r : ref) (df : DataFrame) : M unit := fun σ => (<[r := df]> σ, Ok tt).

(** [r[col] = s] through a reference. *)
Definition set_item (r : ref) (col : string) (s : Series) : M unit :=
  df ← deref r; assign r (setitem df col s).

(** [r.index.name = name] *)
Definition set_index_name (r : ref) (name : string) : M unit :=
  df ← deref r; assign r (Frame (Some name) (index df) (columns df)).

(** ** The QC decision engine *)

(** The subject of a scan identifier: [id.split("sub-")[-1].split("_")[0]] *)
Definition subject_of (id : string) : string :=
  split_first "_" (split_last "sub-" id).

Definition as_bool (c : cell) : option bool :=
  match c with
  | VBool b => Some b
  | _ => None
  end.

(** The three threshold tests on the functional table and their product,
    as assigned to [pass_func_qc]. *)
Definition pass_func_qc (functional_metrics : DataFrame) : outcome Series :=
  s ← getitem functional_metrics "mean_fd_raw";
  keep_fd ← series_lt s qulaity_control_standards.mean_fd;
  s ← getitem functional_metrics "proportion_kept";
  keep_proportion ← series_gt s qulaity_control_standards.proportion_kept;
  s ← getitem functional_metrics "functional_dice";
  keep_func ← series_gt s qulaity_control_standards.functional_dice;
  p ← series_mul keep_fd keep_proportion;
  series_mul p keep_func.

(** One turn of the loop over [functional_metrics.index]. *)
Definition anat_qc_row (anatomical_metrics : DataFrame) (id : string)
    (pass_anat_qc : dict (dict cell)) : outcome (dict (dict cell)) :=
  let sub := subject_of id in
  anatomical_dice ← loc anatomical_metrics sub "anatomical_dice";
  pass_qc ← loc anatomical_metrics sub "pass_qc";
  Ok (dict_set id [("anatomical_dice", anatomical_dice);
                   ("pass_anat_qc", pass_qc)] pass_anat_qc).

Section Decision.
(** [int(s.sum())] on a column that holds something else than booleans:
    pandas' sum of the numbers, then Python's [int]. *)
Variable object_sum_int : Series -> outcome Z.

(** [int(s.sum())] on [pass_all_qc]. The column is the product of a
    boolean column with the [pass_anat_qc] cells of a frame of mixed rows,
    an object column of numpy booleans: the sum of such cells is their
    logical or, so the count is 1 when a cell is true and 0 otherwise. *)
Definition int_sum (s : Series) : outcome Z :=
  match mapM as_bool s with
  | Some bs => Ok (if decide (true ∈ bs) then 1 else 0)
  | None => object_sum_int s
  end.

(** The part of [quality_accessments] after the loop: the two tables side
    by side, [pass_all_qc], and the count that the summary line prints. *)
Definition combined_table (functional_metrics : DataFrame)
    (pass_anat_qc : dict (dict cell)) : outcome DataFrame :=
  let anat_qc := DataFrame_T pass_anat_qc in
  metrics ← concat_columns functional_metrics anat_qc;
  a ← getitem metrics "pass_func_qc";
  b ← getitem metrics "pass_anat_qc";
  pass_all_qc ← series_mul a b;
  let metrics := setitem metrics "pass_all_qc" pass_all_qc in
  _ ← int_sum pass_all_qc;
  Ok metrics.

(** The function reads its two arguments through their references: the
    assignment of [pass_func_qc] lands in the caller's frame, and the
    anatomical table is read after it. *)
Definition quality_accessments (functional_metrics anatomical_metrics : ref) : M DataFrame :=
  fm ← deref functional_metrics;
  p ← lift (pass_func_qc fm);
  _ ← set_item functional_metrics "pass_func_qc" p;
  (* get the anatomical pass / fail *)
  fm ← deref functional_metrics;
  am ← deref anatomical_metrics;
  pass_anat_qc ← lift (for_each (anat_qc_row am) (index fm) []);
  lift (combined_table fm pass_anat_qc).
End Decision.

(** The store after the assignment of [pass_func_qc], which is all that a
    call of [quality_accessments] leaves behind. *)
Definition after_pass_func_qc (fm : ref) (σ : store) : store :=
  match pass_func_qc (σ !!! fm) with
  | Ok p => <[fm := setitem (σ !!! fm) "pass_func_qc" p]> σ
  | Raise _ => σ
  end.

(** ** The identifier parser *)

Definition strip_header (h : string) (identifiers : DataFrame) : outcome DataFrame :=
  s ← getitem identifiers h;
  Ok (setitem identifiers h (cell_replace (h +:+ "-") "" <$> s)).

(** The keys of the first identifier. *)
Definition headers_of (id0 : string) : list string :=
  split_first "-" <$> str_split "_" id0.

(** The body of [parse_scan_information] below the assignment of the
    index name. *)
Definition parsed_table (metrics : DataFrame) : outcome DataFrame :=
  id0 ← first (index metrics);
  let headers := headers_of id0 in
  let identifiers :=
    Frame (index_name metrics) (index metrics)
          [("identifier", VStr <$> index metrics)] in
  s ← getitem identifiers "identifier";
  identifiers ← setitem_columns identifiers headers (str_split_expand "_" s);
  identifiers ← drop identifiers "identifier";
  identifiers ← for_each strip_header headers identifiers;
  let identifiers := rename identifiers "sub" "participant_id" in
  concat_columns identifiers metrics.

Definition parse_scan_information (metrics : ref) : M DataFrame :=
  _ ← set_index_name metrics "identifier";
  m ← deref metrics;
  lift (parsed_table m).




(** ** The dataset side: reference masks and the two metric tables *)

(** An entity filter, as the keyword arguments of [BIDSLayout.get]: the
    accepted values of each entity (a single value is a list of one). A
    layout answers a filter with the paths of the matching files. *)
Abbreviation entity_filter := (dict (list string)).
Definition BIDSLayout : Type := entity_filter -> list string.

Definition confounds_filter (subjects task : list string) : entity_filter :=
  [("subject", subjects); ("task", task);
   ("desc", ["confounds"]); ("extension", ["tsv"])].

Definition func_filter (subjects task : list string) : entity_filter :=
  [("subject", subjects); ("task", task); ("space", [template]);
   ("desc", ["brain"]); ("suffix", ["mask"]);
   ("extension", ["nii.gz"]); ("datatype", ["func"])].

Definition anat_filter (sub : string) : entity_filter :=
  [("subject", [sub]); ("space", [template]);
   ("desc", ["brain"]); ("suffix", ["mask"]);
   ("extension", ["nii.gz"]); ("datatype", ["anat"])].

(** [a[mask]] for a boolean mask on [a]. *)
Definition compress {A : Type} (mask : list bool) (a : list A) : list A :=
  (filter (fun p => p.1 = true) (zip mask a)).*2.

(** Python's [sum(kept) / n] for a boolean array [kept] and an [int] [n]:
    on a non-empty array the sum is an [int64] and the quotient numpy's;
    on the empty array both are Python's zero. *)
Definition proportion (kept_volumes : list bool) (timeseries_length : nat) : outcome float :=
  match kept_volumes with
  | [] =>
    if decide (timeseries_length = 0%nat) then Raise ZeroDivisionError
    else Ok (true_divide 0 (Z.of_nat timeseries_length))
  | _ => Ok (true_divide (np_sum kept_volumes) (Z.of_nat timeseries_length))
  end.

Section Dataset.
Variable read_nifti : string -> image.
Variable resample_to_img : image -> image -> image.
(** [templateflow.api.get(template, desc=, suffix=, resolution=)] *)
Variable templateflow_api_get : list string -> string -> string -> string -> string.
(** nilearn's [intersect_masks(paths, threshold=)] *)
Variable intersect_masks : list string -> float -> outcome image.
(** The [framewise_displacement] column of a confounds table, as
    [pd.read_csv(path, sep="\t")] gives it, and [np.nanmean]. *)
Variable read_framewise_displacement : string -> list float.
Variable np_nanmean : list float -> float.

Definition get_reference_mask (analysis_level : string)
    (subjects task : list string) (fmriprep_bids_layout : BIDSLayout)
    : outcome (gmap string niimg) :=
  let template_mask :=
    templateflow_api_get [template] "brain" "mask" "01" in
  let reference_masks : gmap string niimg := {[ "anat" := Path template_mask ]} in
  if bool_decide (analysis_level = "group") && bool_decide (1 < length subjects)%nat
  then
    (* create a group level mask *)
    let func_masks := fmriprep_bids_layout (func_filter subjects task) in
    group_mask ← intersect_masks func_masks 0.5%float;
    Ok (<[ "func" := Nifti group_mask ]> reference_masks)
  else Ok (<[ "func" := Path template_mask ]> reference_masks).

(** [d[k]] on the dict of reference masks. *)
Definition reference (reference_masks : gmap string niimg) (k : string) : outcome niimg :=
  match reference_masks !! k with
  | Some m => Ok m
  | None => Raise (KeyError k)
  end.

(** Body of the loop over the confound files. *)
Definition motion_row (confound_file : string) (metrics : dict (dict cell))
    : outcome (dict (dict cell)) :=
  let framewise_displacements := read_framewise_displacement confound_file in
  let timeseries_length := length framewise_displacements in
  let fds_mean_raw := np_nanmean framewise_displacements in
  let kept_volumes :=
    (fun x => (x <? qulaity_control_standards.scrubbing_fd)%float)
      <$> framewise_displacements in
  let fds_mean_scrub := np_nanmean (compress kept_volumes framewise_displacements) in
  proportion_kept ← proportion kept_volumes timeseries_length;
  let identifier := split_first "_desc-confounds" (path_name confound_file) in
  Ok (dict_set identifier
        [("mean_fd_raw", VFloat fds_mean_raw);
         ("mean_fd_scrubbed", VFloat fds_mean_scrub);
         ("proportion_kept", VFloat proportion_kept)] metrics).

(** Body of the loop over the functional masks. *)
Definition functional_dice_row (reference_masks : gmap string niimg)
    (func_file : string) (metrics : dict (dict cell)) : outcome (dict (dict cell)) :=
  let identifier := split_first ("_space-" +:+ template) (path_name func_file) in
  mask ← reference reference_masks "func";
  functional_dice ← _dice_coefficient read_nifti resample_to_img (Path func_file) mask;
  match dict_get identifier metrics with
  | Some row =>
    Ok (dict_set identifier
          (dict_update row [("functional_dice", VFloat functional_dice)]) metrics)
  | None =>
    Ok (dict_set identifier [("functional_dice", VFloat functional_dice)] metrics)
  end.

Definition calculate_functional_metrics (subjects task : list string)
    (fmriprep_bids_layout : BIDSLayout) (reference_masks : gmap string niimg)
    : outcome DataFrame :=
  let confounds := fmriprep_bids_layout (confounds_filter subjects task) in
  metrics ← for_each motion_row confounds [];
  let func_images := fmriprep_bids_layout (func_filter subjects task) in
  metrics ← for_each (functional_dice_row reference_masks) func_images metrics;
  let metrics := DataFrame_T metrics in
  Ok (sort_index metrics).

(** Body of the loop over the subjects. *)
Definition anat_row (fmriprep_bids_layout : BIDSLayout)
    (reference_masks : gmap string niimg)
    (sub : string) (metrics : dict (dict cell)) : outcome (dict (dict cell)) :=
  let anat_image := fmriprep_bids_layout (anat_filter sub) in
  (* dice *)
  anat_file ← first anat_image;
  mask ← reference reference_masks "anat";
  anat_dice ← _dice_coefficient read_nifti resample_to_img (Path anat_file) mask;
  Ok (dict_set sub [("anatomical_dice", VFloat anat_dice)] metrics).

Definition calculate_anat_metrics (subjects : list string)
    (fmriprep_bids_layout : BIDSLayout) (reference_masks : gmap string niimg)
    : outcome DataFrame :=
  metrics ← for_each (anat_row fmriprep_bids_layout reference_masks) subjects [];
  let metrics := DataFrame_T metrics in
  s ← getitem metrics "anatomical_dice";
  pass_qc ← series_gt s qulaity_control_standards.anatomical_dice;
  let metrics := setitem metrics "pass_qc" pass_qc in
  Ok (sort_index metrics).
End Dataset.

(** ** Sample data *)

(** A 2x2x2 volume on the identity affine, without a voxel set, and one
    with two voxels set. *)
Definition identity_affine : list float :=
  [1; 0; 0; 0;  0; 1; 0; 0;  0; 0; 1; 0;  0; 0; 0; 1]%float.
Definition empty_volume : image :=
  Image identity_affine [2; 2; 2]%nat [0; 0; 0; 0; 0; 0; 0; 0]%float.
Definition small_volume : image :=
  Image identity_affine [2; 2; 2]%nat [1; 1; 0; 0; 0; 0; 0; 0]%float.
Definition no_file (p : string) : image := empty_volume.
Definition no_resampling (img target : image) : image := img.

(** The tables of three scans of one task: the first passes, the second
    moves too much, the third sits on the threshold of the mean framewise
    displacement. *)
Definition sample_functional : DataFrame :=
  Frame None ["sub-01_task-rest"; "sub-02_task-rest"; "sub-03_task-rest"]
    [("mean_fd_raw", [VFloat 0.3; VFloat 0.6; VFloat 0.55]);
     ("mean_fd_scrubbed", [VFloat 0.1; VFloat 0.15; VFloat 0.12]);
     ("proportion_kept", [VFloat 0.8; VFloat 0.8; VFloat 0.8]);
     ("functional_dice", [VFloat 0.95; VFloat 0.95; VFloat 0.95])].

Definition sample_anatomical : DataFrame :=
  Frame None ["01"; "02"; "03"]
    [("anatomical_dice", [VFloat 0.995; VFloat 0.995; VFloat 0.5]);
     ("pass_qc", [VBool true; VBool true; VBool false])].

(** The same anatomical table without the third subject. *)
Definition short_anatomical : DataFrame :=
  Frame None ["01"; "02"]
    [("anatomical_dice", [VFloat 0.995; VFloat 0.995]);
     ("pass_qc", [VBool true; VBool true])].

Definition sample_store : store :=
  {[ 0%nat := sample_functional; 1%nat := sample_anatomical ]}.
Definition short_store : store :=
  {[ 0%nat := sample_functional; 1%nat := short_anatomical ]}.


(** The sample tables hold booleans only where a sum is printed. *)
Definition no_object_sum (s : Series) : outcome Z := Raise TypeError.

(** A layout in which subject 01 has an anatomical mask and subject 02
    has none; every file holds [small_volume]. *)
Definition sample_layout : BIDSLayout := fun q =>
  if decide (q = anat_filter "01")
  then ["/data/sub-01/anat/sub-01_space-MNI152NLin2009cAsym_desc-brain_mask.nii.gz"]
  else [].
Definition small_file (p : string) : image := small_volume.
Definition sample_masks : gmap string niimg :=
  {[ "anat" := Nifti small_volume; "func" := Nifti small_volume ]}.

(** A confounds table of three volumes, the first without a framewise
    displacement, and a mean that skips the missing entries. *)
Definition sample_displacements (p : string) : list float :=
  [nan; 0.1; 0.3]%float.
Definition sample_nanmean (a : list float) : float :=
  let present := filter (fun x => is_nan x = false) a in
  (foldr PrimFloat.add 0 present / float_of_int64 (Z.of_nat (length present)))%float.

(** ** Notions for the statements *)

(** A frame whose columns have one cell per row. *)
Definition aligned (df : DataFrame) : Prop :=
  Forall (fun c => length c.2 = length (index df)) (columns df).

(** The identifier of a scan, from its confounds file and from its mask. *)
Definition confounds_identifier (file : string) : string :=
  split_first "_desc-confounds" (path_name file).
Definition mask_identifier (file : string) : string :=
  split_first ("_space-" +:+ template) (path_name file).

(** [sep] starts at a character of [s], read in front of [tail]. *)
Fixpoint starts_within (sep s tail : string) : bool :=
  match s with
  | EmptyString => false
  | String _ s' => String.prefix sep (s +:+ tail) || starts_within sep s' tail
  end.

(** Modelled from the spec: what nilearn's [intersect_masks], which is
    not in [src/], returns at the threshold 0.5: "a voxel-wise
    majority-vote (threshold 0.5) intersection mask across them". On the
    grid of the first mask, a voxel is set when more than half of the
    masks set it; without a mask there is no grid to vote on. *)
Definition voxel_set (mask : image) (i : nat) : bool :=
  match get_fdata mask !! i with
  | Some x => astype_bool x
  | None => false
  end.
Definition voxel_votes (masks : list image) (i : nat) : nat :=
  length (filter (fun mask => voxel_set mask i = true) masks).
Definition majority_vote (masks : list image) : outcome image :=
  match masks with
  | [] => Raise ValueError
  | first :: _ =>
    Ok (Image (affine first) (shape first)
          ((fun i => float_of_bool (bool_decide (length masks < 2 * voxel_votes masks i)%nat))
             <$> seq 0 (length (get_fdata first))))
  end.

(** The subjects have a first anatomical mask each, with the coefficient
    [score] against the [anat] reference. *)
Definition anat_scores (read_nifti : string -> image)
    (resample_to_img : image -> image -> image) (layout : BIDSLayout)
    (reference_masks : gmap string niimg) (subjects : list string)
    (score : string -> float) : Prop :=
  exists mask,
    reference_masks !! "anat" = Some mask /\
    forall sub, sub ∈ subjects ->
      exists file rest,
        layout (anat_filter sub) = file :: rest /\
        _dice_coefficient read_nifti resample_to_img (Path file) mask = Ok (score sub).

(** ** More sample data *)

(** Two more volumes on the grid of [small_volume]: one shares a voxel
    with it, the other none. *)
Definition shifted_volume : image :=
  Image identity_affine [2; 2; 2]%nat [0; 1; 1; 0; 0; 0; 0; 0]%float.
Definition far_volume : image :=
  Image identity_affine [2; 2; 2]%nat [0; 0; 0; 0; 0; 0; 1; 1]%float.

(** A dataset of two subjects with one task: the files of subject 01 hold
    [small_volume], the others [shifted_volume]. *)
Definition study_layout : BIDSLayout := fun q =>
  if decide (q = anat_filter "01")
  then ["/data/sub-01/anat/sub-01_space-MNI152NLin2009cAsym_desc-brain_mask.nii.gz"]
  else if decide (q = anat_filter "02")
  then ["/data/sub-02/anat/sub-02_space-MNI152NLin2009cAsym_desc-brain_mask.nii.gz"]
  else if decide (q = confounds_filter ["01"; "02"] ["rest"])
  then ["/data/sub-02/func/sub-02_task-rest_desc-confounds_timeseries.tsv";
        "/data/sub-01/func/sub-01_task-rest_desc-confounds_timeseries.tsv"]
  else if decide (q = func_filter ["01"; "02"] ["rest"])
  then ["/data/sub-02/func/sub-02_task-rest_space-MNI152NLin2009cAsym_desc-brain_mask.nii.gz";
        "/data/sub-01/func/sub-01_task-rest_space-MNI152NLin2009cAsym_desc-brain_mask.nii.gz"]
  else [].
Definition study_file (p : string) : image :=
  if str_contains "sub-01" p then small_volume else shifted_volume.
Definition study_anat_score (sub : string) : float :=
  if decide (sub = "01") then 1%float else 0.5%float.
Definition study_func_score (file : string) : float :=
  if str_contains "sub-01" file then 1%float else 0.5%float.
Definition study_scans : list (string * string) :=
  [("/data/sub-02/func/sub-02_task-rest_desc-confounds_timeseries.tsv",
    "/data/sub-02/func/sub-02_task-rest_space-MNI152NLin2009cAsym_desc-brain_mask.nii.gz");
   ("/data/sub-01/func/sub-01_task-rest_desc-confounds_timeseries.tsv",
    "/data/sub-01/func/sub-01_task-rest_space-MNI152NLin2009cAsym_desc-brain_mask.nii.gz")].

(** The same dataset without its confounds files, and a reader of
    confounds tables without a volume. *)
Definition masks_only_layout : BIDSLayout := fun q =>
  if decide (q = confounds_filter ["01"; "02"] ["rest"]) then [] else study_layout q.
Definition no_displacements (p : string) : list float := [].

(** A functional table with a missing mean displacement, one without a
    row, and the stores that hold them. *)
Definition incomplete_functional : DataFrame :=
  Frame None ["sub-01_task-rest"]
    [("mean_fd_raw", [VFloat nan]);
     ("proportion_kept", [VFloat 0.8]);
     ("functional_dice", [VFloat 0.95])].
Definition empty_functional : DataFrame :=
  Frame None [] [("mean_fd_raw", []); ("proportion_kept", []); ("functional_dice", [])].
Definition incomplete_store : store :=
  {[ 0%nat := incomplete_functional; 1%nat := sample_anatomical ]}.
Definition rowless_store : store :=
  {[ 0%nat := empty_functional; 1%nat := sample_anatomical ]}.

(** The anatomical cells that the sample tables hold for a scan. *)
Definition sample_anatomical_dice (id : string) : cell :=
  if str_contains "sub-03" id then VFloat 0.5 else VFloat 0.995.
Definition sample_pass_qc (id : string) : bool := negb (str_contains "sub-03" id).

(** Tables whose identifiers differ in their number of entities. *)
Definition ragged_store : store :=
  {[ 0%nat := Frame None ["sub-01_task-rest"; "sub-02_ses-1_task-rest"] [] ]}.

(** A template path and a group mask for [get_reference_mask]. *)
Definition sample_templateflow (template : list string) (desc suffix resolution : string)
    : string :=
  "/templateflow/tpl-MNI152NLin2009cAsym_res-01_desc-brain_mask.nii.gz".
Definition sample_intersect (masks : list string) (threshold : float) : outcome image :=
  Ok small_volume.

(** The vote on the masks that [study_file] reads. *)
Definition study_vote (masks : list string) (threshold : float) : outcome image :=
  majority_vote (study_file <$> masks).

(** * Properties *)

(** ** Facts on binary64 *)

Lemma SFeqb_sym (a b : spec_float) : SFeqb a b = SFeqb b a.
Proof.
  unfold SFeqb.
  destruct a as [sa|sa| |sa ma ea], b as [sb|sb| |sb mb eb]; simpl;
    try reflexivity; try (destruct sa, sb; reflexivity); try (destruct sa; reflexivity);
    try (destruct sb; reflexivity).
  rewrite (Z.compare_antisym ea eb), !Pos.compare_cont_spec; simpl.
  rewrite (Pos.compare_antisym ma mb).
  destruct sa, sb; try reflexivity;
    destruct (ea ?= eb)%Z; simpl; try reflexivity;
    destruct (ma ?= mb)%positive; reflexivity.
Qed.

Lemma float_eqb_sym (x y : float) : (x =? y)%float = (y =? x)%float.
Proof. rewrite !FloatAxioms.eqb_spec. apply SFeqb_sym. Qed.

Lemma SFeqb_refl (a : spec_float) : a <> S754_nan -> SFeqb a a = true.
Proof.
  unfold SFeqb. destruct a as [s|s| |s m e]; simpl; try (destruct s; reflexivity).
  - congruence.
  - intros _. rewrite Z.compare_refl, Pos.compare_cont_spec, Pos.compare_refl.
    destruct s; reflexivity.
Qed.

Lemma is_nan_Prim2SF (x : float) : is_nan x = true -> Prim2SF x = S754_nan.
Proof.
  unfold is_nan. rewrite FloatAxioms.eqb_spec. intros H.
  destruct (Prim2SF x) eqn:E; try reflexivity;
    rewrite SFeqb_refl in H; try discriminate; done.
Qed.

(** A NaN is below nothing. *)
Lemma ltb_nan_l (x y : float) : is_nan x = true -> (x <? y)%float = false.
Proof. intros H. rewrite FloatAxioms.ltb_spec, (is_nan_Prim2SF _ H). reflexivity. Qed.

Lemma ltb_not_nan (x y : float) : (x <? y)%float = true -> is_nan x = false.
Proof.
  intros H. destruct (is_nan x) eqn:E; [|done].
  rewrite (ltb_nan_l x y E) in H. discriminate.
Qed.

(** ** The quotient of two counts

    The float of an integer below 2^53 is exact; the quotient of two such
    floats is followed through the rounding of the binary64 specification
    down to its exponent. *)

Lemma digits2_pos_size (p : positive) : digits2_pos p = Pos.size p.
Proof. induction p; simpl; congruence. Qed.

Lemma digits2_bounds (p : positive) :
  2 ^ (Zpos (digits2_pos p) - 1) <= Zpos p < 2 ^ Zpos (digits2_pos p).
Proof.
  rewrite digits2_pos_size. split.
  - pose proof (Pos.size_le p) as H.
    assert (2 ^ Zpos (Pos.size p) <= 2 * Zpos p) as H'.
    { change 2 with (Zpos 2) at 1. rewrite <- Pos2Z.inj_pow. lia. }
    replace (Zpos (Pos.size p)) with (Z.succ (Zpos (Pos.size p) - 1)) in H' by lia.
    rewrite Z.pow_succ_r in H' by lia. lia.
  - pose proof (Pos.size_gt p) as H.
    change 2 with (Zpos 2). rewrite <- Pos2Z.inj_pow. lia.
Qed.

Lemma digits2_unique (p : positive) (d : Z) :
  2 ^ (d - 1) <= Zpos p < 2 ^ d -> Zpos (digits2_pos p) = d.
Proof.
  intros [Hl Hu]. pose proof (digits2_bounds p) as [Hl' Hu'].
  assert (0 < d) as Hd.
  { destruct (Z.lt_ge_cases 0 d); [done|].
    assert (2 ^ d <= 2 ^ 0) by (apply Z.pow_le_mono_r; lia). simpl in *. lia. }
  destruct (Z.lt_trichotomy (Zpos (digits2_pos p)) d) as [H|[H|H]]; [|done|].
  - assert (2 ^ Zpos (digits2_pos p) <= 2 ^ (d - 1)) by (apply Z.pow_le_mono_r; lia). lia.
  - assert (2 ^ d <= 2 ^ (Zpos (digits2_pos p) - 1)) by (apply Z.pow_le_mono_r; lia). lia.
Qed.

Lemma shr_1_m (r : shr_record) : 0 <= shr_m r -> shr_m (shr_1 r) = Z.div2 (shr_m r).
Proof. destruct r as [[|[p|p|]|p] ? ?]; simpl; intros; try reflexivity; lia. Qed.

Lemma round_nearest_even_bounds (m : Z) (l : location) :
  m <= round_nearest_even m l <= m + 1.
Proof. destruct l as [|[]]; simpl; try destruct (Z.even m); lia. Qed.

Lemma shr_record_of_loc_m (m : Z) (l : location) : shr_m (shr_record_of_loc m l) = m.
Proof. destruct l as [|[]]; reflexivity. Qed.

Lemma loc_of_shr_record_of_loc (m : Z) (l : location) :
  loc_of_shr_record (shr_record_of_loc m l) = l.
Proof. destruct l as [|[]]; reflexivity. Qed.

(** One normalising shift of a mantissa of 53 or 54 bits. *)
Lemma shr_fexp_53 (m e : Z) (l : location) :
  2 ^ 52 <= m < 2 ^ 53 -> -1074 <= e ->
  shr_fexp prec emax m e l = (shr_record_of_loc m l, e).
Proof.
  intros Hm He. unfold shr_fexp. destruct m as [|p|p]; try lia.
  simpl Zdigits2. rewrite (digits2_unique p 53) by (simpl; lia).
  unfold fexp, SpecFloat.emin, prec, emax.
  replace (Z.max (53 + e - 53) (3 - 1024 - 53) - e) with 0 by lia. reflexivity.
Qed.

Lemma shr_fexp_54 (m e : Z) (l : location) :
  2 ^ 53 <= m < 2 ^ 54 -> -1074 <= e ->
  shr_fexp prec emax m e l = (shr_1 (shr_record_of_loc m l), e + 1).
Proof.
  intros Hm He. unfold shr_fexp. destruct m as [|p|p]; try lia.
  simpl Zdigits2. rewrite (digits2_unique p 54) by (simpl; lia).
  unfold fexp, SpecFloat.emin, prec, emax.
  replace (Z.max (54 + e - 53) (3 - 1024 - 53) - e) with 1 by lia. reflexivity.
Qed.

Lemma binary_round_aux_exponent (q e : Z) (l : location) :
  2 ^ 52 <= q < 2 ^ 54 -> -1074 <= e <= 900 ->
  exists mf ef,
    binary_round_aux prec emax false q e l = S754_finite false mf ef /\
    ef <= e + 2 /\
    (q < 2 ^ 54 - 2 -> ef <= e + 1) /\
    (q < 2 ^ 53 - 1 -> ef = e) /\
    (l = loc_Exact -> q < 2 ^ 53 -> Zpos mf = q /\ ef = e).
Proof.
  intros Hq He. unfold binary_round_aux.
  assert (exists r e1, shr_fexp prec emax q e l = (r, e1) /\
            2 ^ 52 <= shr_m r < 2 ^ 53 /\
            (q < 2 ^ 53 -> e1 = e /\ r = shr_record_of_loc q l) /\
            (2 ^ 53 <= q -> e1 = e + 1 /\ shr_m r = Z.div2 q)) as (r & e1 & -> & Hr & Hlo & Hhi).
  { destruct (Z.lt_ge_cases q (2 ^ 53)).
    - eexists _, _. split; [apply shr_fexp_53; lia|].
      rewrite shr_record_of_loc_m. repeat split; lia.
    - eexists _, _. split; [apply shr_fexp_54; lia|].
      rewrite shr_1_m, shr_record_of_loc_m by (rewrite shr_record_of_loc_m; lia).
      rewrite Z.div2_div.
      assert (2 ^ 52 <= q / 2) by (apply Z.div_le_lower_bound; lia).
      assert (q / 2 < 2 ^ 53) by (apply Z.div_lt_upper_bound; lia).
      repeat split; lia. }
  set (mr := round_nearest_even (shr_m r) (loc_of_shr_record r)).
  pose proof (round_nearest_even_bounds (shr_m r) (loc_of_shr_record r)) as Hmr.
  fold mr in Hmr.
  destruct (Z.lt_ge_cases mr (2 ^ 53)) as [Hlt|Hge].
  - rewrite shr_fexp_53 by lia. simpl shr_m.
    destruct mr as [|pm|pm] eqn:Emr; try lia.
    replace (e1 <=? emax - prec) with true
      by (symmetry; apply Z.leb_le; unfold emax, prec;
          destruct (Z.lt_ge_cases q (2 ^ 53)); [apply Hlo in H|apply Hhi in H]; lia).
    exists pm, e1. split; [done|].
    destruct (Z.lt_ge_cases q (2 ^ 53)) as [H|H].
    + destruct (Hlo H) as [-> Er]. do 3 (split; [lia|]).
      intros -> _. subst r. unfold mr in Emr. simpl in Emr. lia.
    + destruct (Hhi H) as [-> Er]. do 3 (split; [lia|]). lia.
  - assert (mr = 2 ^ 53) as Emr by lia.
    rewrite shr_fexp_54 by lia. rewrite Emr. simpl shr_m.
    replace (e1 + 1 <=? emax - prec) with true
      by (symmetry; apply Z.leb_le; unfold emax, prec;
          destruct (Z.lt_ge_cases q (2 ^ 53)); [apply Hlo in H|apply Hhi in H]; lia).
    eexists _, _. split; [reflexivity|].
    destruct (Z.lt_ge_cases q (2 ^ 53)) as [H|H].
    + destruct (Hlo H) as [-> Er]. subst r. rewrite shr_record_of_loc_m in Hmr.
      do 3 (split; [lia|]).
      intros -> _. unfold mr in Emr. simpl in Emr. lia.
    + destruct (Hhi H) as [-> Er]. rewrite Er, Z.div2_div in Hmr.
      split; [lia|]. split; [|lia].
      intros Hq2. exfalso.
      assert (q / 2 < 2 ^ 53 - 1) by (apply Z.div_lt_upper_bound; lia). lia.
Qed.

Lemma iter_xO (c p : positive) : Zpos (Pos.iter xO p c) = Zpos p * 2 ^ Zpos c.
Proof.
  revert p. induction c using Pos.peano_ind; intros p.
  - simpl. lia.
  - rewrite Pos.iter_succ, Pos2Z.inj_succ, Z.pow_succ_r by lia.
    rewrite Pos2Z.inj_xO, IHc. lia.
Qed.

(** The float of a positive integer below 2^53: a 53-bit mantissa and the
    exponent that restores the integer. *)
Lemma binary_normalize_int (k : Z) :
  0 < k < 2 ^ 53 ->
  exists m e,
    binary_normalize prec emax k 0 false = S754_finite false m e /\
    2 ^ 52 <= Zpos m < 2 ^ 53 /\ -52 <= e <= 0 /\ Zpos m = k * 2 ^ (- e).
Proof.
  intros Hk. destruct k as [|p|p]; try lia. simpl binary_normalize.
  unfold binary_round.
  pose proof (digits2_bounds p) as Hd.
  set (d := Zpos (digits2_pos p)) in *.
  assert (1 <= d <= 53) as Hd53.
  { split; [unfold d; lia|].
    destruct (Z.lt_ge_cases 53 d); [|lia].
    assert (2 ^ 53 <= 2 ^ (d - 1)) by (apply Z.pow_le_mono_r; lia). lia. }
  unfold fexp, SpecFloat.emin, prec, emax.
  replace (Z.max (d + 0 - 53) (3 - 1024 - 53)) with (d - 53) by lia.
  unfold shl_align.
  destruct (d - 53 - 0) as [|c|c] eqn:Ec; try lia.
  - assert (d = 53) as Ed by lia. rewrite Ed in Hd.
    destruct (binary_round_aux_exponent (Zpos p) 0 loc_Exact) as (mf & ef & Heq & _ & _ & _ & Hm);
      [simpl in *; lia|lia|].
    exists mf, ef. split; [exact Heq|].
    destruct Hm as [-> ->]; [done|simpl in *; lia|].
    simpl in *. lia.
  - assert (2 ^ 52 <= Zpos (Pos.iter xO p c) < 2 ^ 53) as Hm.
    { rewrite iter_xO.
      assert (Zpos c = 53 - d) as -> by lia.
      assert (2 ^ 52 = 2 ^ (d - 1) * 2 ^ (53 - d)) as ->
        by (rewrite <- Z.pow_add_r by lia; f_equal; lia).
      assert (2 ^ 53 = 2 ^ d * 2 ^ (53 - d)) as ->
        by (rewrite <- Z.pow_add_r by lia; f_equal; lia).
      assert (0 < 2 ^ (53 - d)) by (apply Z.pow_pos_nonneg; lia). nia. }
    destruct (binary_round_aux_exponent (Zpos (Pos.iter xO p c)) (d - 53) loc_Exact)
      as (mf & ef & Heq & _ & _ & _ & Hmf); [lia|lia|].
    exists mf, ef. split; [exact Heq|].
    destruct Hmf as [-> ->]; [done|lia|].
    split; [lia|]. split; [lia|].
    rewrite iter_xO. f_equal. f_equal. lia.
Qed.

(** The quotient of two 53-bit floats whose values are integers [k < n]
    has an exponent below that of 1. *)
Lemma SFdiv_below_one (k n : Z) (m1 m2 : positive) (e1 e2 : Z) :
  0 < k < n ->
  2 ^ 52 <= Zpos m1 < 2 ^ 53 -> -52 <= e1 <= 0 -> Zpos m1 = k * 2 ^ (- e1) ->
  2 ^ 52 <= Zpos m2 < 2 ^ 53 -> -52 <= e2 <= 0 -> Zpos m2 = n * 2 ^ (- e2) ->
  exists mf ef,
    SFdiv prec emax (S754_finite false m1 e1) (S754_finite false m2 e2)
      = S754_finite false mf ef /\ ef <= -53.
Proof.
  intros Hkn Hm1 He1 Ek Hm2 He2 En.
  assert (e1 <= e2) as Hle.
  { destruct (Z.le_gt_cases e1 e2) as [|Hgt]; [done|exfalso].
    assert (2 ^ (- e2) = 2 * 2 ^ (- e2 - 1)) as E2
      by (rewrite <- Z.pow_succ_r by lia; f_equal; lia).
    assert (2 ^ (- e1) <= 2 ^ (- e2 - 1)) by (apply Z.pow_le_mono_r; lia).
    assert (0 < 2 ^ (- e1)) by (apply Z.pow_pos_nonneg; lia).
    nia. }
  assert (Zpos m1 < Zpos m2 * 2 ^ (e2 - e1)) as Hlt.
  { rewrite Ek, En, <- Z.mul_assoc, <- Z.pow_add_r by lia.
    replace (- e2 + (e2 - e1)) with (- e1) by lia.
    assert (0 < 2 ^ (- e1)) by (apply Z.pow_pos_nonneg; lia). nia. }
  unfold SFdiv, SFdiv_core_binary. simpl Zdigits2.
  rewrite (digits2_unique m1 53), (digits2_unique m2 53) by (simpl; lia).
  unfold fexp, SpecFloat.emin, prec, emax.
  replace (Z.min (Z.max (53 + e1 - (53 + e2) - 53) (3 - 1024 - 53)) (e1 - e2))
    with (e1 - e2 - 53) by lia.
  replace (e1 - e2 - (e1 - e2 - 53)) with 53 by lia.
  rewrite Z.shiftl_mul_pow2 by lia.
  pose proof (Z_div_mod (Zpos m1 * 2 ^ 53) (Zpos m2) eq_refl) as Hdiv.
  destruct (Z.div_eucl (Zpos m1 * 2 ^ 53) (Zpos m2)) as [q r].
  destruct Hdiv as [Hq Hr].
  assert (2 ^ 52 <= q < 2 ^ 54) as Hqb by (simpl in *; nia).
  destruct (binary_round_aux_exponent q (e1 - e2 - 53) (new_location (Zpos m2) r))
    as (mf & ef & Heq & H2 & H1 & H0 & _); [done|lia|].
  exists mf, ef. split; [exact Heq|].
  destruct (Z.eq_dec e1 e2) as [->|Hne].
  - rewrite Z.sub_diag in Hlt. rewrite H0; [lia|]. simpl in *. nia.
  - destruct (Z.eq_dec (e2 - e1) 1) as [E1|Hne1]; [|lia].
    enough (q < 2 ^ 54 - 2) by (specialize (H1 ltac:(done)); lia).
    assert (exists h, Zpos m1 = 2 * h) as [h Eh].
    { exists (k * 2 ^ (- e1 - 1)). rewrite Ek.
      replace (- e1) with (Z.succ (- e1 - 1)) at 1 by lia.
      rewrite Z.pow_succ_r by lia. lia. }
    simpl in *. nia.
Qed.

Lemma float_of_int_spec (k : Z) :
  0 <= k < 2 ^ 53 ->
  Prim2SF (float_of_int64 k) = binary_normalize prec emax k 0 false.
Proof.
  intros Hk. unfold float_of_int64.
  destruct (Z.ltb_spec k 0); [lia|].
  rewrite FloatAxioms.of_uint63_spec, Uint63.of_Z_spec. f_equal.
  apply Z.mod_small. change wB with (2 ^ 63).
  assert (2 ^ 53 < 2 ^ 63) by (apply Z.pow_lt_mono_r; lia). lia.
Qed.

(** Fewer than all of at most 2^53 - 1 entries is a proportion below 1. *)
Lemma true_divide_lt_one (k n : Z) :
  0 <= k < n -> n < 2 ^ 53 -> (true_divide k n <? 1)%float = true.
Proof.
  intros Hk Hn. unfold true_divide.
  rewrite FloatAxioms.ltb_spec, FloatAxioms.div_spec, !float_of_int_spec by lia.
  destruct (binary_normalize_int n) as (m2 & e2 & -> & Hm2 & He2 & En); [lia|].
  destruct (Z.eq_dec k 0) as [->|Hk0]; [reflexivity|].
  destruct (binary_normalize_int k) as (m1 & e1 & -> & Hm1 & He1 & Ek); [lia|].
  destruct (SFdiv_below_one k n m1 m2 e1 e2) as (mf & ef & Heq & Hef); try done; [lia|].
  unfold SF64div. rewrite Heq.
  change (Prim2SF 1) with (S754_finite false 4503599627370496 (-52)).
  unfold SFltb, SFcompare.
  destruct (Z.compare_spec ef (-52)); first [lia | reflexivity].
Qed.

(** ** The Dice coefficient *)

Lemma ne_any_sym (a b : list float) : ne_any a b = ne_any b a.
Proof.
  revert b. induction a as [|x a IH]; intros [|y b]; simpl; try reflexivity.
  by rewrite float_eqb_sym, IH.
Qed.

Lemma zip_with_andb_comm (a b : list bool) : zip_with andb a b = zip_with andb b a.
Proof.
  revert b. induction a as [|x a IH]; intros [|y b]; simpl; try reflexivity.
  by rewrite andb_comm, IH.
Qed.

Lemma np_sum_no_true (a : list bool) : Forall (fun b => b = false) a -> np_sum a = 0.
Proof.
  intros H. unfold np_sum.
  replace (filter (fun b => b = true) a) with (@nil bool); [reflexivity|].
  induction H as [|b a -> _ IH]; [reflexivity|].
  by rewrite filter_cons_False.
Qed.

Lemma zip_with_andb_no_true (a b : list bool) :
  Forall (fun b => b = false) a -> Forall (fun b => b = false) (zip_with andb a b).
Proof.
  intros H. revert b. induction H as [|x a -> _ IH]; intros [|y b]; simpl; constructor; auto.
Qed.

Section DiceFacts.
Variable read_nifti : string -> image.
Variable resample_to_img : image -> image -> image.

Abbreviation dice := (_dice_coefficient read_nifti resample_to_img).

(** C2, as the code has it: two masks on one grid without a single
    voxel set make 0/0, and the coefficient is not-a-number. *)
Theorem dice_of_empty_masks (processed_img template_mask : niimg) :
  let P := load_img read_nifti processed_img in
  let T := on_grid_of resample_to_img P (load_img read_nifti template_mask) in
  shape P = shape T ->
  Forall (fun x => astype_bool x = false) (get_fdata P) ->
  Forall (fun x => astype_bool x = false) (get_fdata T) ->
  dice processed_img template_mask = Ok nan.
Proof.
  intros P T Hshape HP HT. unfold _dice_coefficient. fold P. fold T.
  unfold np_logical_and. rewrite decide_True by done. simpl.
  assert (Forall (fun b => b = false) (astype_bool <$> get_fdata P)) as HP'
    by (by apply Forall_fmap).
  assert (Forall (fun b => b = false) (astype_bool <$> get_fdata T)) as HT'
    by (by apply Forall_fmap).
  rewrite (np_sum_no_true _ (zip_with_andb_no_true _ (astype_bool <$> get_fdata T) HP')).
  rewrite (np_sum_no_true _ HP'), (np_sum_no_true _ HT').
  reflexivity.
Qed.
End DiceFacts.

(** ** Dicts and frames *)

Lemma dict_get_set_eq {V : Type} (k : string) (v : V) (d : dict V) :
  dict_get k (dict_set k v d) = Some v.
Proof.
  induction d as [|[k' v'] d IH]; simpl.
  - by rewrite decide_True.
  - destruct (decide (k' = k)); simpl; [by rewrite decide_True|by rewrite decide_False].
Qed.

Lemma dict_get_set_ne {V : Type} (k k' : string) (v : V) (d : dict V) :
  k <> k' -> dict_get k' (dict_set k v d) = dict_get k' d.
Proof.
  intros Hne. induction d as [|[k0 v0] d IH]; simpl.
  - by rewrite decide_False.
  - destruct (decide (k0 = k)) as [->|]; simpl.
    + by rewrite !decide_False.
    + destruct (decide (k0 = k')); [done|apply IH].
Qed.

Lemma dict_get_app_l {V : Type} (k : string) (v : V) (d e : dict V) :
  dict_get k d = Some v -> dict_get k (d ++ e) = Some v.
Proof.
  induction d as [|[k' v'] d IH]; simpl; [done|].
  destruct (decide (k' = k)); [done|apply IH].
Qed.

Lemma getitem_setitem_eq (df : DataFrame) (col : string) (s : Series) :
  getitem (setitem df col s) col = Ok s.
Proof. unfold getitem, dict_item. simpl. by rewrite dict_get_set_eq. Qed.

Lemma getitem_setitem_ne (df : DataFrame) (col col' : string) (s : Series) :
  col <> col' -> getitem (setitem df col s) col' = getitem df col'.
Proof. intros H. unfold getitem, dict_item. simpl. by rewrite dict_get_set_ne. Qed.

Lemma getitem_Ok (df : DataFrame) (col : string) (s : Series) :
  getitem df col = Ok s <-> dict_get col (columns df) = Some s.
Proof.
  unfold getitem, dict_item. destruct (dict_get col (columns df)); split; congruence.
Qed.

(** ** Series of floats and of booleans *)

Lemma mapM_cons {A B : Type} (f : A -> outcome B) (x : A) (l : list A) :
  mapM f (x :: l) = (y ← f x; k ← mapM f l; mret (y :: k)).
Proof. reflexivity. Qed.

Lemma series_lt_floats (xs : list float) (t : float) :
  series_lt (VFloat <$> xs) t = Ok (VBool <$> ((fun x => x <? t)%float <$> xs)).
Proof.
  unfold series_lt. induction xs as [|x xs IH]; [reflexivity|].
  rewrite fmap_cons, mapM_cons, IH. reflexivity.
Qed.

Lemma series_gt_floats (xs : list float) (t : float) :
  series_gt (VFloat <$> xs) t = Ok (VBool <$> ((fun x => t <? x)%float <$> xs)).
Proof.
  unfold series_gt. induction xs as [|x xs IH]; [reflexivity|].
  rewrite fmap_cons, mapM_cons, IH. reflexivity.
Qed.

Lemma series_mul_bools (a b : list bool) :
  series_mul (VBool <$> a) (VBool <$> b) = Ok (VBool <$> zip_with andb a b).
Proof.
  revert b. induction a as [|x a IH]; intros [|y b]; try reflexivity.
  simpl. by rewrite IH.
Qed.

(** [pass_func_qc] on a table of floats. *)
Lemma pass_func_qc_floats (df : DataFrame) (xs ys zs : list float) :
  getitem df "mean_fd_raw" = Ok (VFloat <$> xs) ->
  getitem df "proportion_kept" = Ok (VFloat <$> ys) ->
  getitem df "functional_dice" = Ok (VFloat <$> zs) ->
  pass_func_qc df =
    Ok (VBool <$> zip_with andb
          (zip_with andb ((fun x => x <? 0.55)%float <$> xs)
                         ((fun y => 0.5 <? y)%float <$> ys))
          ((fun z => 0.89 <? z)%float <$> zs)).
Proof.
  intros Hx Hy Hz. unfold pass_func_qc. rewrite Hx, Hy, Hz. simpl.
  rewrite series_lt_floats, !series_gt_floats. simpl.
  rewrite series_mul_bools. simpl. by rewrite series_mul_bools.
Qed.

(** ** What a call leaves in the store *)

Section DecisionFacts.
Variable object_sum_int : Series -> outcome Z.
Abbreviation quality := (quality_accessments object_sum_int).

Lemma quality_accessments_store (fm am : ref) (σ : store) :
  (quality fm am σ).1 = after_pass_func_qc fm σ.
Proof.
  unfold quality_accessments, after_pass_func_qc, set_item, assign, deref, lift, mbind, M_bind.
  destruct (pass_func_qc (σ !!! fm)); simpl; [|done].
  by destruct (for_each _ _ _).
Qed.

Lemma quality_accessments_result (fm am : ref) (σ : store) (p : Series) :
  pass_func_qc (σ !!! fm) = Ok p ->
  (quality fm am σ).2 =
    (let σ' := <[fm := setitem (σ !!! fm) "pass_func_qc" p]> σ in
     pass_anat_qc ← for_each (anat_qc_row (σ' !!! am)) (index (σ' !!! fm)) [];
     combined_table object_sum_int (σ' !!! fm) pass_anat_qc).
Proof.
  intros Hp.
  unfold quality_accessments, set_item, assign, deref, lift, mbind at 1 2 3 4 5 6 7, M_bind.
  rewrite Hp. simpl.
  by destruct (for_each _ _ _).
Qed.

Lemma after_pass_func_qc_other (fm r : ref) (σ : store) :
  r <> fm -> after_pass_func_qc fm σ !! r = σ !! r.
Proof.
  intros H. unfold after_pass_func_qc.
  destruct (pass_func_qc (σ !!! fm)); [|done]. by rewrite lookup_insert_ne.
Qed.

Lemma after_pass_func_qc_index (fm r : ref) (σ : store) :
  index (after_pass_func_qc fm σ !!! r) = index (σ !!! r).
Proof.
  unfold after_pass_func_qc. destruct (pass_func_qc (σ !!! fm)); [|done].
  destruct (decide (r = fm)) as [->|H].
  - by rewrite lookup_total_insert_eq.
  - by rewrite lookup_total_insert_ne.
Qed.

Lemma combined_table_pass_func_qc (df metrics : DataFrame)
    (pass_anat_qc : dict (dict cell)) (p : Series) :
  getitem df "pass_func_qc" = Ok p ->
  combined_table object_sum_int df pass_anat_qc = Ok metrics ->
  getitem metrics "pass_func_qc" = Ok p.
Proof.
  intros Hp. unfold combined_table, concat_columns.
  destruct (decide (index df = index (DataFrame_T pass_anat_qc))); [|done].
  simpl. set (both := Frame _ _ _).
  assert (getitem both "pass_func_qc" = Ok p) as Hboth.
  { apply getitem_Ok. simpl. apply dict_get_app_l. by apply getitem_Ok. }
  rewrite Hboth. simpl.
  destruct (getitem both "pass_anat_qc"); simpl; [|done].
  destruct (series_mul p a); simpl; [|done].
  destruct (int_sum object_sum_int a0); simpl; [|done].
  intros [= <-]. by rewrite getitem_setitem_ne.
Qed.

(** C1: on a functional table of floats, the call writes into the
    [pass_func_qc] column of the table (and of the table it returns), at
    every row, whether the mean framewise displacement is below 0.55 and
    the proportion kept above 0.5 and the functional Dice above 0.89, all
    three strictly; a mean framewise displacement of exactly 0.55 fails. *)
Theorem pass_func_qc_thresholds (fm am : ref) (σ : store) (xs ys zs : list float) :
  getitem (σ !!! fm) "mean_fd_raw" = Ok (VFloat <$> xs) ->
  getitem (σ !!! fm) "proportion_kept" = Ok (VFloat <$> ys) ->
  getitem (σ !!! fm) "functional_dice" = Ok (VFloat <$> zs) ->
  exists p,
    getitem ((quality fm am σ).1 !!! fm) "pass_func_qc" = Ok p /\
    (forall metrics, (quality fm am σ).2 = Ok metrics ->
       getitem metrics "pass_func_qc" = Ok p) /\
    forall i x y z,
      xs !! i = Some x -> ys !! i = Some y -> zs !! i = Some z ->
      exists b,
        p !! i = Some (VBool b) /\
        (b = true <->
           (x <? 0.55)%float = true /\ (0.5 <? y)%float = true /\
           (0.89 <? z)%float = true) /\
        (x = 0.55%float -> b = false).
Proof.
  intros Hx Hy Hz.
  pose proof (pass_func_qc_floats _ _ _ _ Hx Hy Hz) as Hp.
  exists (VBool <$> zip_with andb
          (zip_with andb ((fun x => x <? 0.55)%float <$> xs)
                         ((fun y => 0.5 <? y)%float <$> ys))
          ((fun z => 0.89 <? z)%float <$> zs)).
  split; [|split].
  - rewrite quality_accessments_store. unfold after_pass_func_qc.
    rewrite Hp, lookup_total_insert_eq. apply getitem_setitem_eq.
  - intros metrics. rewrite (quality_accessments_result _ _ _ _ Hp). simpl.
    rewrite lookup_total_insert_eq.
    destruct (for_each _ _ _); simpl; [|done].
    apply combined_table_pass_func_qc, getitem_setitem_eq.
  - intros i x y z Hxi Hyi Hzi.
    exists ((x <? 0.55)%float && (0.5 <? y)%float && (0.89 <? z)%float).
    split; [|split].
    + rewrite list_lookup_fmap, !lookup_zip_with, !list_lookup_fmap, Hxi, Hyi, Hzi.
      reflexivity.
    + rewrite !andb_true_iff. tauto.
    + intros ->. reflexivity.
Qed.

Lemma loc_KeyError (df : DataFrame) (row col : string) (e : exn) :
  loc df row col = Raise e -> exists k, e = KeyError k.
Proof.
  unfold loc, getitem, dict_item.
  destruct (dict_get col (columns df)); simpl; [|intros [= <-]; eauto].
  destruct (get_loc row (index df)); [|intros [= <-]; eauto].
  destruct (l !! n); [done|intros [= <-]; eauto].
Qed.

Lemma get_loc_None (label : string) (labels : list string) :
  label ∉ labels -> get_loc label labels = None.
Proof.
  induction labels as [|l labels IH]; [done|].
  intros H. apply not_elem_of_cons in H as [H1 H2]. simpl.
  rewrite decide_False by done. by rewrite IH.
Qed.

Lemma loc_Ok_elem_of (df : DataFrame) (row col : string) (c : cell) :
  loc df row col = Ok c -> row ∈ index df.
Proof.
  unfold loc. destruct (getitem df col); simpl; [|done].
  destruct (decide (row ∈ index df)) as [|H]; [done|].
  by rewrite (get_loc_None _ _ H).
Qed.

Lemma anat_qc_row_cases (am : DataFrame) (id : string) (acc : dict (dict cell)) :
  (exists acc', anat_qc_row am id acc = Ok acc' /\ subject_of id ∈ index am) \/
  (exists k, anat_qc_row am id acc = Raise (KeyError k)).
Proof.
  unfold anat_qc_row.
  destruct (loc am (subject_of id) "anatomical_dice") as [d|e] eqn:Ed; simpl.
  - destruct (loc am (subject_of id) "pass_qc") as [q|e] eqn:Eq; simpl.
    + left. eexists. split; [done|]. by apply loc_Ok_elem_of in Ed.
    + right. apply loc_KeyError in Eq as [k ->]. eauto.
  - right. apply loc_KeyError in Ed as [k ->]. eauto.
Qed.

Lemma anat_loop_KeyError (am : DataFrame) (ids : list string)
    (acc : dict (dict cell)) (id : string) :
  id ∈ ids -> subject_of id ∉ index am ->
  exists k, for_each (anat_qc_row am) ids acc = Raise (KeyError k).
Proof.
  intros Hin Habsent. revert acc.
  induction ids as [|id0 ids IH]; intros acc; [by apply elem_of_nil in Hin|].
  simpl.
  destruct (anat_qc_row_cases am id0 acc) as [(acc' & -> & Hsub)|(k & ->)]; simpl.
  - apply elem_of_cons in Hin as [->|Hin]; [done|by apply IH].
  - eauto.
Qed.

(** C6: once the threshold tests are through, a functional row whose
    subject is not a row of the anatomical table makes the call raise a
    [KeyError], which nothing catches. *)
Theorem quality_accessments_unknown_subject (fm am : ref) (σ : store)
    (p : Series) (id : string) :
  pass_func_qc (σ !!! fm) = Ok p ->
  id ∈ index (σ !!! fm) ->
  subject_of id ∉ index (σ !!! am) ->
  exists k, (quality fm am σ).2 = Raise (KeyError k).
Proof.
  intros Hp Hid Habsent.
  rewrite (quality_accessments_result _ _ _ _ Hp). simpl.
  pose proof (after_pass_func_qc_index fm) as Hindex.
  unfold after_pass_func_qc in Hindex.
  pose proof (Hindex fm σ) as Hfm. pose proof (Hindex am σ) as Ham.
  rewrite Hp in Hfm, Ham.
  destruct (anat_loop_KeyError
              (<[fm:=setitem (σ !!! fm) "pass_func_qc" p]> σ !!! am)
              (index (<[fm:=setitem (σ !!! fm) "pass_func_qc" p]> σ !!! fm)) [] id)
    as [k Hk].
  - by rewrite Hfm.
  - by rewrite Ham.
  - exists k. by rewrite Hk.
Qed.

(** The call assigns [pass_func_qc] into its functional table and touches
    nothing else. *)
Lemma quality_accessments_frame (fm am : ref) (σ : store) :
  let σ' := (quality fm am σ).1 in
  (forall r, r <> fm -> σ' !! r = σ !! r) /\
  index (σ' !!! fm) = index (σ !!! fm) /\
  index_name (σ' !!! fm) = index_name (σ !!! fm) /\
  (forall c, c <> "pass_func_qc" -> getitem (σ' !!! fm) c = getitem (σ !!! fm) c) /\
  (forall p, pass_func_qc (σ !!! fm) = Ok p -> getitem (σ' !!! fm) "pass_func_qc" = Ok p).
Proof.
  cbv zeta. rewrite quality_accessments_store.
  split; [intros r; apply after_pass_func_qc_other|].
  split; [apply after_pass_func_qc_index|].
  unfold after_pass_func_qc.
  destruct (pass_func_qc (σ !!! fm)) as [p|e]; [|by repeat split].
  rewrite lookup_total_insert_eq.
  split; [done|]. split.
  - intros c Hc. by apply getitem_setitem_ne.
  - intros ? [= <-]. apply getitem_setitem_eq.
Qed.
End DecisionFacts.

(** The call names the index of its table and touches nothing else. *)
Lemma parse_scan_information_frame (r : ref) (σ : store) :
  let σ' := (parse_scan_information r σ).1 in
  (forall r', r' <> r -> σ' !! r' = σ !! r') /\
  index (σ' !!! r) = index (σ !!! r) /\
  columns (σ' !!! r) = columns (σ !!! r) /\
  index_name (σ' !!! r) = Some "identifier".
Proof.
  cbv zeta.
  assert ((parse_scan_information r σ).1
          = <[r := Frame (Some "identifier") (index (σ !!! r)) (columns (σ !!! r))]> σ) as ->.
  { unfold parse_scan_information, set_index_name, assign, deref, lift, mbind, M_bind.
    reflexivity. }
  rewrite lookup_total_insert_eq. simpl.
  split; [|done]. intros r' H. by rewrite lookup_insert_ne.
Qed.

(** C3, as the code has it: each of the two functions assigns into the
    frame it is given. [quality_accessments] sets the [pass_func_qc] column
    of its functional table and nothing else: the row labels, the name of
    the index, every other column and every other frame (the anatomical
    table, when it is another frame) stay. [parse_scan_information] sets
    the name of the index of its table to [identifier] and nothing else. *)
Theorem arguments_after_call (object_sum_int : Series -> outcome Z)
    (fm am r : ref) (σ : store) :
  let σq := (quality_accessments object_sum_int fm am σ).1 in
  let σp := (parse_scan_information r σ).1 in
  ((forall r', r' <> fm -> σq !! r' = σ !! r') /\
   index (σq !!! fm) = index (σ !!! fm) /\
   index_name (σq !!! fm) = index_name (σ !!! fm) /\
   (forall c, c <> "pass_func_qc" -> getitem (σq !!! fm) c = getitem (σ !!! fm) c) /\
   (forall p, pass_func_qc (σ !!! fm) = Ok p ->
      getitem (σq !!! fm) "pass_func_qc" = Ok p)) /\
  ((forall r', r' <> r -> σp !! r' = σ !! r') /\
   index (σp !!! r) = index (σ !!! r) /\
   columns (σp !!! r) = columns (σ !!! r) /\
   index_name (σp !!! r) = Some "identifier").
Proof.
  split; [apply quality_accessments_frame|apply parse_scan_information_frame].
Qed.

(** ** The metric tables *)

Lemma for_each_app {A S : Type} (body : A -> S -> outcome S) (l k : list A) (s : S) :
  for_each body (l ++ k) s = (s' ← for_each body l s; for_each body k s').
Proof.
  revert s. induction l as [|x l IH]; intros s; simpl; [done|].
  destruct (body x s); simpl; [apply IH|done].
Qed.

Lemma for_each_raises {A S : Type} (body : A -> S -> outcome S) (l : list A) (x : A) :
  x ∈ l -> (forall s, raises (body x s)) -> forall s, raises (for_each body l s).
Proof.
  intros Hin Hx. induction l as [|y l IH]; intros s; [by apply elem_of_nil in Hin|].
  simpl. apply elem_of_cons in Hin as [<-|Hin].
  - specialize (Hx s). by destruct (body x s).
  - destruct (body y s); simpl; [by apply IH|done].
Qed.

Lemma wrap64_small (z : Z) : 0 <= z < 2 ^ 63 -> wrap64 z = z.
Proof.
  intros H. unfold wrap64.
  rewrite Z.mod_small; [lia|].
  change (2 ^ 64) with (2 ^ 63 + 2 ^ 63). lia.
Qed.

Lemma filter_true_length (l : list bool) :
  false ∈ l -> (length (filter (fun b => b = true) l) < length l)%nat.
Proof.
  induction l as [|b l IH]; intros H; [by apply elem_of_nil in H|].
  pose proof (length_filter (fun b => b = true) l) as Hle.
  destruct b.
  - rewrite filter_cons_True by done. simpl.
    apply elem_of_cons in H as [H|H]; [done|]. specialize (IH H). lia.
  - rewrite filter_cons_False by done. simpl. lia.
Qed.

Lemma elem_of_compress {A : Type} (f : A -> bool) (l : list A) (x : A) :
  x ∈ compress (f <$> l) l -> f x = true.
Proof.
  unfold compress. induction l as [|y l IH]; simpl; [by intros H%elem_of_nil|].
  destruct (f y) eqn:Ey.
  - rewrite filter_cons_True by done. simpl.
    intros [->|H]%elem_of_cons; [done|by apply IH].
  - rewrite filter_cons_False by (simpl; congruence). apply IH.
Qed.

Section ReferenceFacts.
Variable read_nifti : string -> image.
Variable templateflow_api_get : list string -> string -> string -> string -> string.
Variable intersect_masks : list string -> float -> outcome image.

(** C4: exactly at the group level with more than one subject, the
    [func] entry is what [intersect_masks] returns, at the threshold 0.5,
    on the files that the layout lists for the functional brain masks of
    the listed subjects and tasks in the template space; in every other
    case it is the template mask of the [anat] entry. Where
    [intersect_masks] at 0.5 is the majority vote of the spec, a voxel of
    the [func] entry is set exactly when more than half of these masks
    set it. *)
Theorem get_reference_mask_func (analysis_level : string)
    (subjects task : list string) (layout : BIDSLayout) :
  let template_mask :=
    Path (templateflow_api_get ["MNI152NLin2009cAsym"] "brain" "mask" "01") in
  let func_masks :=
    layout [("subject", subjects); ("task", task);
            ("space", ["MNI152NLin2009cAsym"]); ("desc", ["brain"]);
            ("suffix", ["mask"]); ("extension", ["nii.gz"]);
            ("datatype", ["func"])] in
  let result :=
    get_reference_mask templateflow_api_get intersect_masks
      analysis_level subjects task layout in
  let group := analysis_level = "group" /\ (1 < length subjects)%nat in
  (forall m, result = Ok m -> m !! "anat" = Some template_mask) /\
  (group ->
   forall g, intersect_masks func_masks 0.5%float = Ok g ->
   exists m, result = Ok m /\ m !! "func" = Some (Nifti g)) /\
  (group ->
   forall e, intersect_masks func_masks 0.5%float = Raise e ->
   result = Raise e) /\
  (~ group -> exists m, result = Ok m /\ m !! "func" = Some template_mask) /\
  (forall m g, result = Ok m -> m !! "func" = Some (Nifti g) ->
     group /\ intersect_masks func_masks 0.5%float = Ok g) /\
  (intersect_masks func_masks 0.5%float = majority_vote (read_nifti <$> func_masks) ->
   group ->
   forall first rest, read_nifti <$> func_masks = first :: rest ->
   exists g m,
     result = Ok m /\ m !! "func" = Some (Nifti g) /\
     affine g = affine first /\ shape g = shape first /\
     length (get_fdata g) = length (get_fdata first) /\
     forall i, (i < length (get_fdata first))%nat ->
       (voxel_set g i = true <->
        (length (first :: rest) < 2 * voxel_votes (first :: rest) i)%nat)).
Proof.
  cbv zeta. unfold get_reference_mask.
  change (func_filter subjects task)
    with [("subject", subjects); ("task", task);
          ("space", ["MNI152NLin2009cAsym"]); ("desc", ["brain"]);
          ("suffix", ["mask"]); ("extension", ["nii.gz"]);
          ("datatype", ["func"])].
  change [template] with ["MNI152NLin2009cAsym"].
  set (func_masks := layout _).
  destruct (bool_decide (analysis_level = "group")) eqn:El;
    [apply bool_decide_eq_true in El|apply bool_decide_eq_false in El];
    (destruct (bool_decide (1 < length subjects)%nat) eqn:En;
     [apply bool_decide_eq_true in En|apply bool_decide_eq_false in En]);
    cbn [andb].
  1: { split; [|split; [|split; [|split; [|split]]]].
       - destruct (intersect_masks _ _); [|done]. by intros m [= <-].
       - intros _ g ->. eauto.
       - by intros _ e ->.
       - tauto.
       - destruct (intersect_masks _ _) as [g0|]; [|done].
         cbn [mbind outcome_bind]. intros m g [= <-].
         rewrite lookup_insert_eq. by intros [= ->].
       - intros Hvote _ first rest Hmasks. rewrite Hvote, Hmasks.
         cbn [majority_vote mbind outcome_bind].
         eexists _, _. split; [reflexivity|]. split; [apply lookup_insert_eq|].
         cbn [affine shape get_fdata]. split; [done|]. split; [done|].
         split; [by rewrite length_fmap, length_seq|].
         intros i Hi. unfold voxel_set at 1. cbn [get_fdata].
         rewrite list_lookup_fmap, lookup_seq_lt by done.
         cbn [fmap option_fmap option_map Nat.add].
         destruct (bool_decide _) eqn:E;
           [apply bool_decide_eq_true in E|apply bool_decide_eq_false in E];
           (split; [|intros H']; (done || by vm_compute)). }
  all: split; [by intros m [= <-]|]; split; [tauto|]; split; [tauto|];
    split; [eauto|]; split; [by intros m g [= <-]|tauto].
Qed.

End ReferenceFacts.

Section AnatomicalFacts.
Variable read_nifti : string -> image.
Variable resample_to_img : image -> image -> image.

(** C10: on the empty list of subjects nothing is returned: the frame has
    no [anatomical_dice] column to compare and the lookup raises. *)
Theorem calculate_anat_metrics_no_subject (layout : BIDSLayout)
    (reference_masks : gmap string niimg) :
  calculate_anat_metrics read_nifti resample_to_img [] layout reference_masks
  = Raise (KeyError "anatomical_dice").
Proof. reflexivity. Qed.

(** C5: a subject without a single anatomical mask makes the call raise:
    no table comes back, and when the loop reaches the subject (the ones
    before it went through) the exception is the [IndexError] of
    [anat_image[0]]. *)
Theorem calculate_anat_metrics_no_mask (layout : BIDSLayout)
    (reference_masks : gmap string niimg) (subjects : list string) (sub : string) :
  sub ∈ subjects ->
  layout (anat_filter sub) = [] ->
  raises (calculate_anat_metrics read_nifti resample_to_img subjects layout reference_masks) /\
  forall before after metrics,
    subjects = before ++ sub :: after ->
    for_each (anat_row read_nifti resample_to_img layout reference_masks) before [] = Ok metrics ->
    calculate_anat_metrics read_nifti resample_to_img subjects layout reference_masks
    = Raise IndexError.
Proof.
  intros Hin Hnone.
  assert (forall metrics,
    anat_row read_nifti resample_to_img layout reference_masks sub metrics = Raise IndexError)
    as Hrow by (intros metrics; unfold anat_row; by rewrite Hnone).
  split.
  - unfold calculate_anat_metrics.
    assert (forall s, raises (anat_row read_nifti resample_to_img layout
                                       reference_masks sub s)) as Hraises
      by (intros s; by rewrite Hrow).
    pose proof (for_each_raises _ subjects sub Hin Hraises []) as H.
    by destruct (for_each _ subjects []).
  - intros before after metrics -> Hbefore. unfold calculate_anat_metrics.
    rewrite for_each_app, Hbefore. simpl. by rewrite Hrow.
Qed.

End AnatomicalFacts.

Section MotionFacts.
Variable read_framewise_displacement : string -> list float.
Variable np_nanmean : list float -> float.

(** C9: a missing framewise displacement is never kept. The kept mask is
    false at every missing entry; what goes into the scrubbed mean holds no
    missing entry; the proportion kept divides by the full length, so that
    with one missing entry it is below 1. *)
Theorem missing_displacement_not_kept (confound_file : string)
    (metrics : dict (dict cell)) :
  let fd := read_framewise_displacement confound_file in
  let kept := (fun x => (x <? 0.2)%float) <$> fd in
  (exists x, x ∈ fd /\ is_nan x = true) ->
  Z.of_nat (length fd) < 2 ^ 53 ->
  (forall i x, fd !! i = Some x -> is_nan x = true -> kept !! i = Some false) /\
  Forall (fun x => is_nan x = false) (compress kept fd) /\
  exists p,
    (p <? 1)%float = true /\
    proportion kept (length fd) = Ok p /\
    motion_row read_framewise_displacement np_nanmean confound_file metrics
    = Ok (dict_set (split_first "_desc-confounds" (path_name confound_file))
            [("mean_fd_raw", VFloat (np_nanmean fd));
             ("mean_fd_scrubbed", VFloat (np_nanmean (compress kept fd)));
             ("proportion_kept", VFloat p)] metrics).
Proof.
  intros fd kept (x0 & Hx0 & Hnan0) Hlen.
  assert (forall i x, fd !! i = Some x -> is_nan x = true -> kept !! i = Some false) as Hkept.
  { intros i x Hi Hnan. unfold kept. rewrite list_lookup_fmap, Hi. simpl.
    by rewrite ltb_nan_l. }
  split; [done|]. split.
  { apply Forall_forall. intros x Hx. apply elem_of_compress in Hx.
    by apply ltb_not_nan in Hx. }
  assert (false ∈ kept) as Hfalse.
  { apply list_elem_of_lookup in Hx0 as [i Hi].
    apply list_elem_of_lookup. exists i. by apply (Hkept i x0). }
  pose proof (filter_true_length kept Hfalse) as Hcount.
  assert (length kept = length fd) as Hlk by (unfold kept; apply length_fmap).
  assert (np_sum kept = Z.of_nat (length (filter (fun b => b = true) kept))) as Hsum.
  { unfold np_sum. apply wrap64_small.
    assert (2 ^ 53 < 2 ^ 63) by (apply Z.pow_lt_mono_r; lia). lia. }
  assert (proportion kept (length fd)
          = Ok (true_divide (np_sum kept) (Z.of_nat (length fd)))) as Hprop.
  { unfold proportion. destruct kept; [by apply elem_of_nil in Hfalse|done]. }
  exists (true_divide (np_sum kept) (Z.of_nat (length fd))).
  split; [|split; [done|]].
  - rewrite Hsum. apply true_divide_lt_one; lia.
  - unfold motion_row.
    change ((fun x => (x <? qulaity_control_standards.scrubbing_fd)%float)
              <$> read_framewise_displacement confound_file) with kept.
    change (read_framewise_displacement confound_file) with fd.
    by rewrite Hprop.
Qed.
End MotionFacts.

(** ** Splitting, joining and replacing *)

Lemma append_cons (c : Ascii.ascii) (a b : string) :
  String c a +:+ b = String c (a +:+ b).
Proof. reflexivity. Qed.

Lemma append_nil_l (b : string) : "" +:+ b = b.
Proof. reflexivity. Qed.

Lemma append_assoc (a b c : string) : (a +:+ b) +:+ c = a +:+ b +:+ c.
Proof.
  induction a as [|x a IH]; [done|]. by rewrite !append_cons, IH.
Qed.

Lemma append_nil_r (a : string) : a +:+ "" = a.
Proof. induction a as [|x a IH]; [done|]. by rewrite append_cons, IH. Qed.

Lemma prefix_nil (s : string) : String.prefix "" s = true.
Proof. by destruct s. Qed.

Lemma prefix_app (p s : string) : String.prefix p (p +:+ s) = true.
Proof.
  induction p as [|c p IH]; [apply prefix_nil|].
  rewrite append_cons. simpl. by destruct (Ascii.ascii_dec c c).
Qed.








(** ** Columns by name *)

Lemma dict_get_None {V : Type} (k : string) (d : dict V) :
  k ∉ d.*1 -> dict_get k d = None.
Proof.
  induction d as [|[k' v'] d IH]; [done|]. simpl.
  intros [H1 H2]%not_elem_of_cons. rewrite decide_False by done. by apply IH.
Qed.

Lemma dict_set_fresh {V : Type} (k : string) (v : V) (d : dict V) :
  k ∉ d.*1 -> dict_set k v d = d ++ [(k, v)].
Proof.
  induction d as [|[k' v'] d IH]; [done|]. simpl.
  intros [H1 H2]%not_elem_of_cons. rewrite decide_False by done. by rewrite IH.
Qed.

Lemma dict_get_app_r {V : Type} (k : string) (d e : dict V) :
  k ∉ d.*1 -> dict_get k (d ++ e) = dict_get k e.
Proof.
  induction d as [|[k' v'] d IH]; [done|]. simpl.
  intros [H1 H2]%not_elem_of_cons. rewrite decide_False by done. by apply IH.
Qed.

Lemma dict_set_app_r {V : Type} (k : string) (v : V) (d e : dict V) :
  k ∉ d.*1 -> dict_set k v (d ++ e) = d ++ dict_set k v e.
Proof.
  induction d as [|[k' v'] d IH]; [done|]. simpl.
  intros [H1 H2]%not_elem_of_cons. rewrite decide_False by done. by rewrite IH.
Qed.








(** ** The parsed table *)



Lemma parse_scan_information_result (r : ref) (σ : store) :
  (parse_scan_information r σ).2
  = parsed_table (Frame (Some "identifier") (index (σ !!! r)) (columns (σ !!! r))).
Proof.
  unfold parse_scan_information, set_index_name, assign, deref, lift, mbind, M_bind.
  simpl. by rewrite lookup_total_insert_eq.
Qed.



(** ** More facts on binary64 *)

Lemma ltb_nan_r (x y : float) : is_nan y = true -> (x <? y)%float = false.
Proof.
  intros H. rewrite FloatAxioms.ltb_spec, (is_nan_Prim2SF _ H).
  unfold SFltb. by destruct (Prim2SF x).
Qed.

(** A float that is at least 0 equals itself: it is no NaN. *)
Lemma leb_zero_eqb_refl (d : float) : (0 <=? d)%float = true -> (d =? d)%float = true.
Proof.
  intros H. destruct (d =? d)%float eqn:E; [done|].
  assert (is_nan d = true) as Hnan by (unfold is_nan; by rewrite E).
  rewrite FloatAxioms.leb_spec, (is_nan_Prim2SF _ Hnan) in H. discriminate H.
Qed.

(** A 53-bit float divided by itself is 1. *)
Lemma SFdiv_self (m : positive) (e : Z) :
  2 ^ 52 <= Zpos m < 2 ^ 53 ->
  SFdiv prec emax (S754_finite false m e) (S754_finite false m e)
  = S754_finite false 4503599627370496 (-52).
Proof.
  intros Hm. unfold SFdiv, SFdiv_core_binary. simpl Zdigits2.
  rewrite (digits2_unique m 53) by (simpl; lia).
  unfold fexp, SpecFloat.emin, prec, emax.
  replace (Z.min (Z.max (53 + e - (53 + e) - 53) (3 - 1024 - 53)) (e - e))
    with (-53) by lia.
  replace (e - e - -53) with 53 by lia.
  rewrite Z.shiftl_mul_pow2 by lia.
  pose proof (Z_div_mod (Zpos m * 2 ^ 53) (Zpos m) eq_refl) as Hdiv.
  destruct (Z.div_eucl (Zpos m * 2 ^ 53) (Zpos m)) as [q r].
  destruct Hdiv as [Hq Hr].
  assert (q = 2 ^ 53) as -> by nia.
  assert (r = 0) as -> by nia.
  assert (new_location (Zpos m) 0 = loc_Exact) as ->
    by (unfold new_location; by destruct (Z.even (Zpos m))).
  reflexivity.
Qed.

Lemma true_divide_self (z : Z) :
  0 < z < 2 ^ 53 -> true_divide z z = 1%float.
Proof.
  intros Hz. apply Prim2SF_inj. unfold true_divide.
  rewrite FloatAxioms.div_spec, !float_of_int_spec by lia.
  destruct (binary_normalize_int z) as (m & e & -> & Hm & _ & _); [lia|].
  unfold SF64div. by rewrite SFdiv_self.
Qed.

Lemma true_divide_zero (n : Z) :
  0 < n < 2 ^ 53 -> true_divide 0 n = 0%float.
Proof.
  intros Hn. apply Prim2SF_inj. unfold true_divide.
  rewrite FloatAxioms.div_spec, !float_of_int_spec by lia.
  destruct (binary_normalize_int n) as (m & e & -> & _ & _ & _); [lia|].
  reflexivity.
Qed.

(** The quotient of two counts [k <= n] lies between 0 and 1. *)
Lemma true_divide_unit_interval (k n : Z) :
  0 <= k <= n -> 0 < n < 2 ^ 53 ->
  (0 <=? true_divide k n)%float = true /\ (true_divide k n <=? 1)%float = true.
Proof.
  intros Hk Hn.
  destruct (Z.eq_dec k n) as [->|Hne]; [by rewrite true_divide_self|].
  destruct (Z.eq_dec k 0) as [->|Hk0]; [by rewrite true_divide_zero|].
  unfold true_divide.
  rewrite !FloatAxioms.leb_spec, FloatAxioms.div_spec, !float_of_int_spec by lia.
  destruct (binary_normalize_int n) as (m2 & e2 & -> & Hm2 & He2 & En); [lia|].
  destruct (binary_normalize_int k) as (m1 & e1 & -> & Hm1 & He1 & Ek); [lia|].
  destruct (SFdiv_below_one k n m1 m2 e1 e2) as (mf & ef & Heq & Hef); try done; [lia|].
  unfold SF64div. rewrite Heq.
  change (Prim2SF 1) with (S754_finite false 4503599627370496 (-52)).
  change (Prim2SF 0) with (S754_zero false).
  split; [reflexivity|].
  unfold SFleb, SFcompare.
  destruct (Z.compare_spec ef (-52)); first [lia | reflexivity].
Qed.

(** ** Counting the voxels of a mask *)

Lemma count_true_le_length (a : list bool) :
  (length (filter (fun b => b = true) a) <= length a)%nat.
Proof. apply length_filter. Qed.

Lemma count_true_zip_l (a b : list bool) :
  (length (filter (fun b => b = true) (zip_with andb a b))
   <= length (filter (fun b => b = true) a))%nat.
Proof.
  revert b. induction a as [|x a IH]; intros [|y b]; simpl; try lia.
  specialize (IH b). destruct x, y; simpl;
    rewrite ?filter_cons_True, ?filter_cons_False by done; simpl; lia.
Qed.

Lemma count_true_zip_r (a b : list bool) :
  (length (filter (fun b => b = true) (zip_with andb a b))
   <= length (filter (fun b => b = true) b))%nat.
Proof. rewrite zip_with_andb_comm. apply count_true_zip_l. Qed.

Lemma count_true_pos (a : list bool) :
  true ∈ a -> (0 < length (filter (fun b => b = true) a))%nat.
Proof.
  intros H. assert (true ∈ filter (fun b => b = true) a) as H'
    by (by apply list_elem_of_filter).
  destruct (filter _ a); [by apply elem_of_nil in H'|simpl; lia].
Qed.

Lemma zip_with_andb_diag (a : list bool) : zip_with andb a a = a.
Proof. induction a as [|[] a IH]; simpl; by rewrite ?IH. Qed.

Lemma np_sum_count (a : list bool) :
  Z.of_nat (length a) < 2 ^ 52 ->
  np_sum a = Z.of_nat (length (filter (fun b => b = true) a)).
Proof.
  intros H. unfold np_sum. apply wrap64_small.
  pose proof (count_true_le_length a).
  assert (2 ^ 52 < 2 ^ 63) by (apply Z.pow_lt_mono_r; lia). lia.
Qed.

Lemma ne_any_diag (a : list float) :
  Forall (fun x => is_nan x = false) a -> ne_any a a = false.
Proof.
  induction 1 as [|x a Hx _ IH]; [done|]. simpl. rewrite IH.
  unfold is_nan in Hx. by rewrite Hx.
Qed.

Section DiceValues.
Variable read_nifti : string -> image.
Variable resample_to_img : image -> image -> image.

Abbreviation dice := (_dice_coefficient read_nifti resample_to_img).

(** The coefficient of two masks of one shape, of fewer than 2^52 voxels
    each, as the quotient of the exact counts. *)
Lemma dice_quotient (processed_img template_mask : niimg) :
  let P := load_img read_nifti processed_img in
  let T := on_grid_of resample_to_img P (load_img read_nifti template_mask) in
  let a := astype_bool <$> get_fdata P in
  let b := astype_bool <$> get_fdata T in
  shape P = shape T ->
  Z.of_nat (length (get_fdata P)) < 2 ^ 52 ->
  Z.of_nat (length (get_fdata T)) < 2 ^ 52 ->
  dice processed_img template_mask
  = Ok (true_divide
          (2 * Z.of_nat (length (filter (fun b => b = true) (zip_with andb a b))))
          (Z.of_nat (length (filter (fun b => b = true) a))
           + Z.of_nat (length (filter (fun b => b = true) b)))).
Proof.
  intros P T a b Hshape HP HT. unfold _dice_coefficient. fold P. fold T. fold a. fold b.
  unfold np_logical_and. rewrite decide_True by done. cbn [mbind outcome_bind].
  assert (length a = length (get_fdata P)) as Ha by apply length_fmap.
  assert (length b = length (get_fdata T)) as Hb by apply length_fmap.
  pose proof (count_true_le_length a). pose proof (count_true_le_length b).
  pose proof (count_true_zip_l a b). pose proof (count_true_le_length (zip_with andb a b)).
  assert (2 ^ 53 = 2 * 2 ^ 52) as E53 by reflexivity.
  assert (2 ^ 53 < 2 ^ 63) by (apply Z.pow_lt_mono_r; lia).
  rewrite (np_sum_count a), (np_sum_count b) by lia.
  rewrite (np_sum_count (zip_with andb a b)) by (rewrite length_zip_with; lia).
  by rewrite !wrap64_small by lia.
Qed.

(** C7, as the code has it: on one grid (the affines are identical, so
    that nothing is resampled, and the shapes are equal) the two calls
    return the same float. Python's [==] on the two results is true when
    one of the masks has a voxel set (fewer than 2^52 voxels each), and
    false when both are empty: the two results are then NaN. *)
Theorem dice_symmetric (A B : niimg) :
  let P := load_img read_nifti A in
  let T := load_img read_nifti B in
  ne_any (affine T) (affine P) = false ->
  shape P = shape T ->
  exists d1 d2,
    dice A B = Ok d1 /\ dice B A = Ok d2 /\ d1 = d2 /\
    (Z.of_nat (length (get_fdata P)) < 2 ^ 52 ->
     Z.of_nat (length (get_fdata T)) < 2 ^ 52 ->
     (exists x, x ∈ get_fdata P ++ get_fdata T /\ astype_bool x = true) ->
     (d1 =? d2)%float = true) /\
    (Forall (fun x => astype_bool x = false) (get_fdata P ++ get_fdata T) ->
     (d1 =? d2)%float = false).
Proof.
  intros P T Hgrid Hshape.
  assert (on_grid_of resample_to_img P T = T) as HT
    by (unfold on_grid_of; by rewrite Hgrid).
  assert (on_grid_of resample_to_img T P = P) as HP
    by (unfold on_grid_of; by rewrite ne_any_sym, Hgrid).
  set (a := astype_bool <$> get_fdata P). set (b := astype_bool <$> get_fdata T).
  set (d := true_divide (wrap64 (2 * np_sum (zip_with andb a b)))
                        (wrap64 (np_sum a + np_sum b))).
  assert (dice A B = Ok d) as HAB.
  { unfold _dice_coefficient. fold P. fold T. rewrite HT.
    unfold np_logical_and. by rewrite decide_True by done. }
  assert (dice B A = Ok d) as HBA.
  { unfold _dice_coefficient. fold P. fold T. rewrite HP.
    unfold np_logical_and. rewrite decide_True by done. cbn [mbind outcome_bind].
    fold a. fold b. unfold d. by rewrite zip_with_andb_comm, (Z.add_comm (np_sum b)). }
  exists d, d. split; [done|]. split; [done|]. split; [done|]. split.
  - intros HsizeP HsizeT (x & Hx & Hset). apply leb_zero_eqb_refl.
    pose proof (dice_quotient A B) as Hq. cbv zeta in Hq. fold P in Hq. fold T in Hq.
    rewrite HT in Hq. specialize (Hq Hshape HsizeP HsizeT).
    rewrite HAB in Hq. injection Hq as ->. fold a. fold b.
    assert (length a = length (get_fdata P)) as Ha by apply length_fmap.
    assert (length b = length (get_fdata T)) as Hb by apply length_fmap.
    pose proof (count_true_le_length a). pose proof (count_true_le_length b).
    pose proof (count_true_zip_l a b). pose proof (count_true_zip_r a b).
    assert (2 ^ 53 = 2 * 2 ^ 52) as E53 by reflexivity.
    assert (true ∈ a ++ b) as Htrue.
    { unfold a, b. rewrite <- fmap_app, <- Hset. by apply list_elem_of_fmap_2. }
    assert (0 < length (filter (fun b => b = true) a)
              + length (filter (fun b => b = true) b))%nat.
    { apply elem_of_app in Htrue as [H'|H']; apply count_true_pos in H'; lia. }
    apply true_divide_unit_interval; lia.
  - intros [HeP HeT]%Forall_app.
    assert (Forall (fun b => b = false) a) as Ha by (by apply Forall_fmap).
    assert (Forall (fun b => b = false) b) as Hb by (by apply Forall_fmap).
    unfold d.
    rewrite (np_sum_no_true _ (zip_with_andb_no_true _ b Ha)).
    by rewrite (np_sum_no_true _ Ha), (np_sum_no_true _ Hb).
Qed.

(** X1: the coefficient of two masks on one grid (equal shapes after the
    resampling, fewer than 2^52 voxels each), with a voxel set in one of
    them, lies between 0 and 1. *)
Theorem dice_in_unit_interval (processed_img template_mask : niimg) :
  let P := load_img read_nifti processed_img in
  let T := on_grid_of resample_to_img P (load_img read_nifti template_mask) in
  shape P = shape T ->
  Z.of_nat (length (get_fdata P)) < 2 ^ 52 ->
  Z.of_nat (length (get_fdata T)) < 2 ^ 52 ->
  (exists x, x ∈ get_fdata P ++ get_fdata T /\ astype_bool x = true) ->
  exists d,
    dice processed_img template_mask = Ok d /\
    (0 <=? d)%float = true /\ (d <=? 1)%float = true.
Proof.
  intros P T Hshape HP HT (x & Hx & Hset).
  rewrite (dice_quotient _ _ Hshape HP HT). fold P. fold T.
  set (a := astype_bool <$> get_fdata P). set (b := astype_bool <$> get_fdata T).
  eexists. split; [reflexivity|].
  assert (length a = length (get_fdata P)) as Ha by apply length_fmap.
  assert (length b = length (get_fdata T)) as Hb by apply length_fmap.
  pose proof (count_true_le_length a). pose proof (count_true_le_length b).
  pose proof (count_true_zip_l a b). pose proof (count_true_zip_r a b).
  assert (2 ^ 53 = 2 * 2 ^ 52) as E53 by reflexivity.
  assert (true ∈ a ++ b) as Htrue.
  { unfold a, b. rewrite <- fmap_app, <- Hset. by apply list_elem_of_fmap_2. }
  assert (0 < length (filter (fun b => b = true) a)
            + length (filter (fun b => b = true) b))%nat.
  { apply elem_of_app in Htrue as [H'|H']; apply count_true_pos in H'; lia. }
  apply true_divide_unit_interval; lia.
Qed.

(** X2: a mask with a voxel set (fewer than 2^52 voxels, no NaN in its
    affine), against itself, has coefficient 1. *)
Theorem dice_of_itself (img : niimg) :
  let A := load_img read_nifti img in
  Forall (fun x => is_nan x = false) (affine A) ->
  Z.of_nat (length (get_fdata A)) < 2 ^ 52 ->
  (exists x, x ∈ get_fdata A /\ astype_bool x = true) ->
  dice img img = Ok 1%float.
Proof.
  intros A Haffine HA (x & Hx & Hset).
  assert (on_grid_of resample_to_img A A = A) as Hgrid
    by (unfold on_grid_of; by rewrite ne_any_diag).
  pose proof (dice_quotient img img) as Hq. cbv zeta in Hq. fold A in Hq.
  rewrite Hgrid in Hq. rewrite Hq by done.
  set (a := astype_bool <$> get_fdata A).
  rewrite zip_with_andb_diag.
  assert (length a = length (get_fdata A)) as Ha by apply length_fmap.
  pose proof (count_true_le_length a).
  assert (true ∈ a) as Htrue
    by (unfold a; rewrite <- Hset; by apply list_elem_of_fmap_2).
  apply count_true_pos in Htrue.
  assert (2 ^ 53 = 2 * 2 ^ 52) as E53 by reflexivity.
  f_equal.
  replace (2 * Z.of_nat (length (filter (fun b => b = true) a)))
    with (Z.of_nat (length (filter (fun b => b = true) a))
          + Z.of_nat (length (filter (fun b => b = true) a))) by lia.
  apply true_divide_self. lia.
Qed.

(** X3: two masks on one grid (equal shapes, fewer than 2^52 voxels
    each) that share no voxel, one of them with a voxel set, have
    coefficient 0. *)
Theorem dice_of_disjoint_masks (processed_img template_mask : niimg) :
  let P := load_img read_nifti processed_img in
  let T := on_grid_of resample_to_img P (load_img read_nifti template_mask) in
  shape P = shape T ->
  Z.of_nat (length (get_fdata P)) < 2 ^ 52 ->
  Z.of_nat (length (get_fdata T)) < 2 ^ 52 ->
  Forall (fun b => b = false)
         (zip_with andb (astype_bool <$> get_fdata P) (astype_bool <$> get_fdata T)) ->
  (exists x, x ∈ get_fdata P ++ get_fdata T /\ astype_bool x = true) ->
  dice processed_img template_mask = Ok 0%float.
Proof.
  intros P T Hshape HP HT Hdisjoint (x & Hx & Hset).
  rewrite (dice_quotient _ _ Hshape HP HT). fold P. fold T.
  set (a := astype_bool <$> get_fdata P) in *.
  set (b := astype_bool <$> get_fdata T) in *.
  assert (filter (fun b => b = true) (zip_with andb a b) = []) as ->.
  { induction Hdisjoint as [|y l -> _ IH]; [done|]. by rewrite filter_cons_False. }
  assert (length a = length (get_fdata P)) as Ha by apply length_fmap.
  assert (length b = length (get_fdata T)) as Hb by apply length_fmap.
  pose proof (count_true_le_length a). pose proof (count_true_le_length b).
  assert (2 ^ 53 = 2 * 2 ^ 52) as E53 by reflexivity.
  assert (true ∈ a ++ b) as Htrue.
  { unfold a, b. rewrite <- fmap_app, <- Hset. by apply list_elem_of_fmap_2. }
  assert (0 < length (filter (fun b => b = true) a)
            + length (filter (fun b => b = true) b))%nat.
  { apply elem_of_app in Htrue as [H'|H']; apply count_true_pos in H'; lia. }
  f_equal. apply true_divide_zero. simpl length. lia.
Qed.
End DiceValues.

(** ** Sorting the rows *)

#[local] Instance label_le_total : Total label_le.
Proof. intros a b. unfold label_le. apply (total String.le). Qed.

#[local] Instance label_le_trans : Transitive label_le.
Proof. intros a b c. unfold label_le. apply (transitivity (R := String.le)). Qed.

Lemma zip_seq_positions {A : Type} (l : list A) :
  Forall (fun x => l !! x.2 = Some x.1) (zip l (seq 0 (length l))).
Proof.
  apply Forall_lookup. intros i [x j] Hi.
  apply lookup_zip_with_Some in Hi as (x' & j' & [= <- <-] & Hx & Hj).
  apply lookup_seq in Hj as [-> _]. done.
Qed.

Lemma take_positions {A : Type} (l : list A) (p : list (A * nat)) :
  Forall (fun x => l !! x.2 = Some x.1) p -> take p.*2 l = p.*1.
Proof.
  unfold take. induction 1 as [|[x j] p Hx _ IH]; [done|].
  simpl in Hx. rewrite !fmap_cons. simpl. rewrite Hx. by f_equal.
Qed.

Lemma sorted_positions (labels : list string) :
  Forall (fun x => labels !! x.2 = Some x.1)
         (merge_sort label_le (zip labels (seq 0 (length labels)))).
Proof. rewrite merge_sort_Permutation. apply zip_seq_positions. Qed.

Lemma sort_index_labels (df : DataFrame) :
  index (sort_index df)
  = (merge_sort label_le (zip (index df) (seq 0 (length (index df))))).*1.
Proof. unfold sort_index, argsort. simpl. apply take_positions, sorted_positions. Qed.

Lemma sort_index_sorted (df : DataFrame) : Sorted String.le (index (sort_index df)).
Proof.
  rewrite sort_index_labels. apply (Sorted_fmap fst label_le String.le); [done|].
  apply Sorted_merge_sort, _.
Qed.

Lemma sort_index_Permutation (df : DataFrame) : index (sort_index df) ≡ₚ index df.
Proof.
  rewrite sort_index_labels, merge_sort_Permutation, fst_zip; [done|].
  by rewrite length_seq.
Qed.

Lemma get_loc_lookup (r : string) (l : list string) (i : nat) :
  get_loc r l = Some i -> l !! i = Some r.
Proof.
  revert i. induction l as [|x l IH]; intros i; [done|]. simpl.
  destruct (decide (x = r)) as [->|]; [by intros [= <-]|].
  destruct (get_loc r l) as [j|]; [|done]. intros [= <-]. by apply IH.
Qed.

Lemma get_loc_elem_of (r : string) (l : list string) :
  r ∈ l -> is_Some (get_loc r l).
Proof.
  induction l as [|x l IH]; [by intros ?%elem_of_nil|]. simpl.
  destruct (decide (x = r)); [eauto|].
  intros [->|H]%elem_of_cons; [done|]. destruct (IH H) as [j ->]. eauto.
Qed.

Lemma get_loc_NoDup (r : string) (l : list string) (i : nat) :
  NoDup l -> l !! i = Some r -> get_loc r l = Some i.
Proof.
  intros Hnd Hi.
  destruct (get_loc_elem_of r l) as [j Hj]; [by eapply list_elem_of_lookup_2|].
  rewrite Hj. f_equal. apply get_loc_lookup in Hj.
  by eapply NoDup_lookup.
Qed.

Lemma take_lookup {A : Type} (p : list nat) (s : list A) (k : nat) :
  Forall (fun j => (j < length s)%nat) p ->
  take p s !! k = p !! k ≫= (s !!.).
Proof.
  unfold take. intros H. revert k. induction H as [|j p Hj _ IH]; intros k; [done|].
  destruct (lookup_lt_is_Some_2 s j Hj) as [x Hx]. simpl. rewrite Hx.
  destruct k as [|k]; simpl; [done|apply IH].
Qed.

Lemma argsort_positions (labels : list string) :
  Forall (fun j => (j < length labels)%nat) (argsort labels).
Proof.
  unfold argsort. rewrite merge_sort_Permutation, snd_zip by (by rewrite length_seq).
  apply Forall_forall. intros j Hj. apply elem_of_seq in Hj. lia.
Qed.

Lemma dict_get_fmap_values {V W : Type} (f : V -> W) (c : string) (d : dict V) :
  dict_get c ((fun x => (x.1, f x.2)) <$> d) = f <$> dict_get c d.
Proof.
  induction d as [|[k v] d IH]; [done|]. rewrite fmap_cons. simpl.
  destruct (decide (k = c)); [done|apply IH].
Qed.

Lemma dict_get_elem_of {V : Type} (c : string) (d : dict V) (v : V) :
  dict_get c d = Some v -> (c, v) ∈ d.
Proof.
  induction d as [|[k w] d IH]; [done|]. simpl.
  destruct (decide (k = c)) as [->|]; [intros [= ->]; left|right; auto].
Qed.

(** Sorting the rows moves the cells with their labels. *)
Lemma loc_sort_index (df : DataFrame) (r c : string) :
  NoDup (index df) -> aligned df -> loc (sort_index df) r c = loc df r c.
Proof.
  intros Hnd Hal. unfold loc, getitem, dict_item.
  rewrite sort_index_labels.
  unfold sort_index at 1. cbn [columns].
  rewrite dict_get_fmap_values.
  destruct (dict_get c (columns df)) as [s|] eqn:Ec; [|done].
  cbn [fmap option_fmap option_map mbind outcome_bind].
  assert (length s = length (index df)) as Hlen.
  { apply dict_get_elem_of in Ec. by apply (proj1 (Forall_forall _ _) Hal) in Ec. }
  set (P := merge_sort label_le (zip (index df) (seq 0 (length (index df))))).
  assert (P.*1 ≡ₚ index df) as Hperm.
  { unfold P. rewrite merge_sort_Permutation, fst_zip; [done|]. by rewrite length_seq. }
  destruct (get_loc r (index df)) as [i|] eqn:Ei.
  - apply get_loc_lookup in Ei.
    assert (r ∈ P.*1) as Hin by (rewrite Hperm; by eapply list_elem_of_lookup_2).
    apply list_elem_of_lookup in Hin as [i' Hi'].
    rewrite (get_loc_NoDup r P.*1 i') by (by rewrite Hperm || done).
    rewrite list_lookup_fmap in Hi'.
    destruct (P !! i') as [[r' j]|] eqn:EP; [|done]. injection Hi' as ->.
    pose proof (sorted_positions (index df)) as Hpos. fold P in Hpos.
    apply (proj1 (Forall_lookup _ _) Hpos) in EP as Hj. simpl in Hj.
    assert (j = i) as -> by (by eapply NoDup_lookup).
    rewrite take_lookup by (rewrite Hlen; apply argsort_positions).
    unfold argsort. fold P. rewrite list_lookup_fmap, EP. reflexivity.
  - assert (r ∉ index df) as Hnot.
    { intros H. apply get_loc_elem_of in H as [j Hj]. congruence. }
    rewrite get_loc_None; [done|]. by rewrite Hperm.
Qed.

(** ** Dicts built in a loop *)

Lemma dict_set_keys {V : Type} (k : string) (v : V) (d : dict V) :
  (dict_set k v d).*1 = if decide (k ∈ d.*1) then d.*1 else d.*1 ++ [k].
Proof.
  induction d as [|[k' v'] d IH]; [done|]. cbn [dict_set].
  destruct (decide (k' = k)) as [->|Hne]; rewrite !fmap_cons; cbn [fst].
  - by rewrite decide_True by left.
  - rewrite IH. destruct (decide (k ∈ d.*1)) as [Hin|Hnot].
    + by rewrite decide_True by (by right).
    + rewrite decide_False; [done|]. by intros [->|?]%elem_of_cons.
Qed.

Lemma dict_set_NoDup {V : Type} (k : string) (v : V) (d : dict V) :
  NoDup d.*1 -> NoDup (dict_set k v d).*1.
Proof.
  intros H. rewrite dict_set_keys. destruct (decide (k ∈ d.*1)); [done|].
  apply NoDup_app. split; [done|]. split; [|apply NoDup_singleton].
  by intros x Hx ->%list_elem_of_singleton.
Qed.

Lemma dict_set_elem_of_keys {V : Type} (k k' : string) (v : V) (d : dict V) :
  k' ∈ (dict_set k v d).*1 <-> k' = k \/ k' ∈ d.*1.
Proof.
  rewrite dict_set_keys. destruct (decide (k ∈ d.*1)).
  - split; [auto|]. by intros [->|?].
  - rewrite elem_of_app, list_elem_of_singleton. tauto.
Qed.

Lemma dict_set_Forall {V : Type} (P : string * V -> Prop) (k : string) (v : V) (d : dict V) :
  P (k, v) -> Forall P d -> Forall P (dict_set k v d).
Proof.
  intros Hk. induction 1 as [|[k' v'] d Hx Hd IH]; simpl; [by repeat constructor|].
  destruct (decide (k' = k)); constructor; auto.
Qed.

Lemma dict_get_app_None {V : Type} (k : string) (d e : dict V) :
  dict_get k d = None -> dict_get k (d ++ e) = dict_get k e.
Proof.
  induction d as [|[k' v'] d IH]; [done|]. simpl.
  destruct (decide (k' = k)); [done|apply IH].
Qed.

Lemma add_keys_present (acc ks : list string) :
  ks ⊆ acc ->
  foldl (fun acc k => if decide (k ∈ acc) then acc else acc ++ [k]) acc ks = acc.
Proof.
  induction ks as [|k ks IH]; intros H; [done|]. simpl.
  rewrite decide_True by (apply H; left). apply IH. intros x Hx. apply H. by right.
Qed.

Lemma add_keys_fresh (acc ks : list string) :
  NoDup (acc ++ ks) ->
  foldl (fun acc k => if decide (k ∈ acc) then acc else acc ++ [k]) acc ks = acc ++ ks.
Proof.
  revert acc. induction ks as [|k ks IH]; intros acc H; [by rewrite app_nil_r|].
  simpl. apply NoDup_app in H as H'. destruct H' as (_ & Hdisj & _).
  rewrite decide_False by (intros Hk; apply (Hdisj _ Hk); left).
  rewrite IH; [by rewrite <- app_assoc|]. by rewrite <- app_assoc.
Qed.

(** The columns of [pd.DataFrame(d).T] when every row of [d] has the
    same keys. *)
Lemma inner_keys_same {V : Type} (d : dict (dict V)) (ks : list string) :
  NoDup ks -> d <> [] -> Forall (fun kv => kv.2.*1 = ks) d -> inner_keys d = ks.
Proof.
  intros Hnd Hne H. unfold inner_keys.
  destruct H as [|kv d Hkv H]; [done|]. cbn [foldl]. unfold dict_keys at 2.
  rewrite Hkv, (add_keys_fresh [] ks) by done. simpl. clear Hne Hkv.
  induction H as [|kv' d Hkv' _ IH]; [done|]. cbn [foldl]. unfold dict_keys at 2.
  by rewrite Hkv', add_keys_present.
Qed.

(** A frame with one column, computed from the row labels. *)
Lemma loc_fmap_column (nm : option string) (keys : list string) (cols : dict Series)
    (f : string -> cell) (c k : string) :
  dict_get c cols = Some (f <$> keys) -> k ∈ keys ->
  loc (Frame nm keys cols) k c = Ok (f k).
Proof.
  intros Hc Hk. unfold loc, getitem, dict_item. cbn [columns index]. rewrite Hc.
  cbn [mbind outcome_bind].
  destruct (get_loc_elem_of k keys Hk) as [i Hi]. rewrite Hi.
  apply get_loc_lookup in Hi. by rewrite list_lookup_fmap, Hi.
Qed.

Lemma for_each_ext {A S : Type} (f g : A -> S -> outcome S) (l : list A) (s : S) :
  (forall x s, x ∈ l -> f x s = g x s) -> for_each f l s = for_each g l s.
Proof.
  revert s. induction l as [|x l IH]; intros s H; [done|]. simpl.
  rewrite (H x s) by left. destruct (g x s); simpl; [|done].
  apply IH. intros y s' Hy. apply H. by right.
Qed.

Section AnatomicalTable.
Variable read_nifti : string -> image.
Variable resample_to_img : image -> image -> image.
Variable layout : BIDSLayout.
Variable reference_masks : gmap string niimg.
Variable score : string -> float.

Abbreviation row_of := (anat_row read_nifti resample_to_img layout reference_masks).
Abbreviation anat_table :=
  (calculate_anat_metrics read_nifti resample_to_img).

Lemma anat_row_scored (subjects : list string) (sub : string) (metrics : dict (dict cell)) :
  anat_scores read_nifti resample_to_img layout reference_masks subjects score ->
  sub ∈ subjects ->
  row_of sub metrics = Ok (dict_set sub [("anatomical_dice", VFloat (score sub))] metrics).
Proof.
  intros (mask & Hmask & Hall) Hin.
  destruct (Hall sub Hin) as (file & rest & Hfiles & Hdice).
  unfold anat_row, reference. rewrite Hfiles, Hmask. simpl. by rewrite Hdice.
Qed.

Lemma anat_loop (subjects subs : list string) (acc : dict (dict cell)) :
  anat_scores read_nifti resample_to_img layout reference_masks subjects score ->
  subs ⊆ subjects ->
  Forall (fun kv => kv.2 = [("anatomical_dice", VFloat (score kv.1))]) acc ->
  NoDup acc.*1 ->
  exists acc',
    for_each row_of subs acc = Ok acc' /\
    Forall (fun kv => kv.2 = [("anatomical_dice", VFloat (score kv.1))]) acc' /\
    NoDup acc'.*1 /\
    forall k, k ∈ acc'.*1 <-> k ∈ acc.*1 \/ k ∈ subs.
Proof.
  intros Hscores. revert acc.
  induction subs as [|sub subs IH]; intros acc Hsub Hacc Hnd.
  - exists acc. repeat split; try done; [tauto|]. intros [?|?%elem_of_nil]; done.
  - cbn [for_each]. rewrite (anat_row_scored subjects) by (done || apply Hsub; left).
    cbn [mbind outcome_bind].
    destruct (IH (dict_set sub [("anatomical_dice", VFloat (score sub))] acc))
      as (acc' & Hloop & Hrows & Hnd' & Hkeys).
    + intros x Hx. apply Hsub. by right.
    + by apply dict_set_Forall.
    + by apply dict_set_NoDup.
    + exists acc'. repeat split; try done.
      * intros Hk. apply Hkeys in Hk as [Hk|Hk]; [|right; by right].
        apply dict_set_elem_of_keys in Hk as [->|Hk]; [right; left|by left].
      * intros Hk. apply Hkeys. rewrite dict_set_elem_of_keys.
        destruct Hk as [Hk|[->|Hk]%elem_of_cons]; auto.
Qed.

(** The table of the scored subjects, as the sorted frame of the rows
    that the loop builds. *)
Lemma anat_table_of_scores (subjects : list string) :
  anat_scores read_nifti resample_to_img layout reference_masks subjects score ->
  subjects <> [] ->
  exists keys,
    anat_table subjects layout reference_masks
    = Ok (sort_index
            (Frame None keys
               [("anatomical_dice", VFloat <$> (score <$> keys));
                ("pass_qc", VBool <$> ((fun x => 0.99 <? x)%float <$> (score <$> keys)))]))
    /\ NoDup keys /\ forall k, k ∈ keys <-> k ∈ subjects.
Proof.
  intros Hscores Hne.
  destruct (anat_loop subjects subjects [] Hscores) as (metrics & Hloop & Hrows & Hnd & Hkeys);
    [done|constructor|constructor|].
  exists metrics.*1. split; [|split; [done|]]; cycle 1.
  { intros k. rewrite Hkeys. split; [intros [?%elem_of_nil|?]; done|auto]. }
  unfold calculate_anat_metrics. rewrite Hloop. cbn [mbind outcome_bind].
  assert (metrics <> []) as Hmetrics.
  { destruct subjects as [|sub subjects']; [done|].
    assert (sub ∈ metrics.*1) as Hin by (apply Hkeys; right; left).
    intros ->. by apply elem_of_nil in Hin. }
  assert (DataFrame_T metrics
          = Frame None metrics.*1 [("anatomical_dice", VFloat <$> (score <$> metrics.*1))]) as ->.
  { unfold DataFrame_T, dict_keys. rewrite (inner_keys_same metrics ["anatomical_dice"]);
      [|apply NoDup_singleton|done|].
    - simpl. do 3 f_equal. rewrite <- !list_fmap_compose.
      apply Forall_fmap_ext. eapply Forall_impl; [exact Hrows|].
      intros [k row] Hrow. simpl in *. by rewrite Hrow.
    - eapply Forall_impl; [exact Hrows|]. intros [k row] Hrow. simpl in *. by rewrite Hrow. }
  unfold getitem at 1, dict_item. cbn [columns dict_get]. rewrite decide_True by done.
  cbn [mbind outcome_bind]. rewrite series_gt_floats. reflexivity.
Qed.

(** X4: with a first mask and its coefficient for every subject of a
    list that is not empty, the anatomical table has one row per subject,
    however often the subject is listed, in ascending order of the
    subject. *)
Theorem anat_table_rows (subjects : list string) :
  anat_scores read_nifti resample_to_img layout reference_masks subjects score ->
  subjects <> [] ->
  exists table,
    anat_table subjects layout reference_masks = Ok table /\
    Sorted String.le (index table) /\
    NoDup (index table) /\
    forall sub, sub ∈ index table <-> sub ∈ subjects.
Proof.
  intros Hscores Hne.
  destruct (anat_table_of_scores subjects Hscores Hne) as (keys & -> & Hnd & Hkeys).
  eexists. split; [reflexivity|]. split; [apply sort_index_sorted|].
  pose proof (sort_index_Permutation
    (Frame None keys
       [("anatomical_dice", VFloat <$> (score <$> keys));
        ("pass_qc", VBool <$> ((fun x => 0.99 <? x)%float <$> (score <$> keys)))])) as Hperm.
  cbn [index] in Hperm. split.
  - by rewrite Hperm.
  - intros sub. by rewrite Hperm.
Qed.

(** X5: under the same conditions, the row of a subject holds the Dice
    coefficient of the first mask that the layout lists for the subject,
    and [pass_qc] says whether it is above 0.99, strictly. *)
Theorem anat_table_cells (subjects : list string) (sub : string) :
  anat_scores read_nifti resample_to_img layout reference_masks subjects score ->
  sub ∈ subjects ->
  exists table,
    anat_table subjects layout reference_masks = Ok table /\
    loc table sub "anatomical_dice" = Ok (VFloat (score sub)) /\
    loc table sub "pass_qc" = Ok (VBool (0.99 <? score sub)%float).
Proof.
  intros Hscores Hin.
  destruct (anat_table_of_scores subjects Hscores) as (keys & -> & Hnd & Hkeys).
  { intros ->. by apply elem_of_nil in Hin. }
  eexists. split; [reflexivity|].
  rewrite !loc_sort_index; try done; cycle 1.
  { repeat constructor; simpl; by rewrite !length_fmap. }
  { repeat constructor; simpl; by rewrite !length_fmap. }
  split.
  - apply (loc_fmap_column _ _ _ (fun k => VFloat (score k))); [|by apply Hkeys].
    simpl. by rewrite <- list_fmap_compose.
  - apply (loc_fmap_column _ _ _ (fun k => VBool (0.99 <? score k)%float));
      [|by apply Hkeys].
    simpl. by rewrite <- !list_fmap_compose.
Qed.
End AnatomicalTable.

(** X6: of the masks that the layout lists for a subject only the first
    is read: two layouts that agree on it (or list none) for every subject
    give the same result, table or exception. *)
Theorem anat_table_first_match (read_nifti : string -> image)
    (resample_to_img : image -> image -> image) (layout1 layout2 : BIDSLayout)
    (reference_masks : gmap string niimg) (subjects : list string) :
  (forall sub, sub ∈ subjects ->
     first (layout1 (anat_filter sub)) = first (layout2 (anat_filter sub))) ->
  calculate_anat_metrics read_nifti resample_to_img subjects layout1 reference_masks
  = calculate_anat_metrics read_nifti resample_to_img subjects layout2 reference_masks.
Proof.
  intros H. unfold calculate_anat_metrics.
  rewrite (for_each_ext _ (anat_row read_nifti resample_to_img layout2 reference_masks));
    [done|].
  intros sub metrics Hin. unfold anat_row. by rewrite (H sub Hin).
Qed.

(** ** The functional table *)

Lemma for_each_invariant {A S : Type} (I : S -> Prop) (body : A -> S -> outcome S)
    (l : list A) (s s' : S) :
  (forall x s s', body x s = Ok s' -> I s -> I s') ->
  I s -> for_each body l s = Ok s' -> I s'.
Proof.
  intros Hbody. revert s. induction l as [|x l IH]; intros s Hs; simpl.
  - by intros [= <-].
  - destruct (body x s) as [s1|] eqn:E; simpl; [|done]. apply IH. by eapply Hbody.
Qed.

Lemma filter_true_all (l : list bool) :
  Forall (fun b => b = true) l -> filter (fun b => b = true) l = l.
Proof.
  induction 1 as [|b l Hb _ IH]; [done|]. by rewrite filter_cons_True, IH.
Qed.

Lemma filter_true_none (l : list bool) :
  Forall (fun b => b = false) l -> filter (fun b => b = true) l = [].
Proof.
  induction 1 as [|b l -> _ IH]; [done|]. by rewrite filter_cons_False.
Qed.

Section FunctionalTable.
Variable read_nifti : string -> image.
Variable resample_to_img : image -> image -> image.
Variable read_framewise_displacement : string -> list float.
Variable np_nanmean : list float -> float.

Abbreviation motion := (motion_row read_framewise_displacement np_nanmean).
Abbreviation functional_table :=
  (calculate_functional_metrics read_nifti resample_to_img
     read_framewise_displacement np_nanmean).

(** X7: for a confounds table with at least one and fewer than 2^53
    volumes, the body of the motion loop files its three metrics under the
    identifier; the proportion kept lies between 0 and 1, it is 1 when
    every displacement is below 0.2 and 0 when none is. *)
Theorem motion_proportion (confound_file : string) (metrics : dict (dict cell)) :
  let fd := read_framewise_displacement confound_file in
  let kept := (fun x => (x <? 0.2)%float) <$> fd in
  fd <> [] ->
  Z.of_nat (length fd) < 2 ^ 53 ->
  exists p,
    motion confound_file metrics
    = Ok (dict_set (split_first "_desc-confounds" (path_name confound_file))
            [("mean_fd_raw", VFloat (np_nanmean fd));
             ("mean_fd_scrubbed", VFloat (np_nanmean (compress kept fd)));
             ("proportion_kept", VFloat p)] metrics) /\
    (0 <=? p)%float = true /\ (p <=? 1)%float = true /\
    (Forall (fun b => b = true) kept -> p = 1%float) /\
    (Forall (fun b => b = false) kept -> p = 0%float).
Proof.
  intros fd kept Hne Hlen.
  assert (length kept = length fd) as Hlk by (unfold kept; apply length_fmap).
  pose proof (count_true_le_length kept) as Hcount.
  assert (0 < length fd)%nat as Hpos by (destruct fd; [done|simpl; lia]).
  assert (np_sum kept = Z.of_nat (length (filter (fun b => b = true) kept))) as Hsum.
  { unfold np_sum. apply wrap64_small.
    assert (2 ^ 53 < 2 ^ 63) by (apply Z.pow_lt_mono_r; lia). lia. }
  assert (proportion kept (length fd)
          = Ok (true_divide (np_sum kept) (Z.of_nat (length fd)))) as Hprop.
  { unfold proportion. destruct kept; [simpl in Hlk; lia|done]. }
  exists (true_divide (np_sum kept) (Z.of_nat (length fd))).
  split; [|rewrite Hsum; repeat split].
  - unfold motion_row.
    change ((fun x => (x <? qulaity_control_standards.scrubbing_fd)%float)
              <$> read_framewise_displacement confound_file) with kept.
    change (read_framewise_displacement confound_file) with fd.
    by rewrite Hprop.
  - apply true_divide_unit_interval; lia.
  - apply true_divide_unit_interval; lia.
  - intros Hall. rewrite filter_true_all, Hlk by done. apply true_divide_self. lia.
  - intros Hnone. rewrite filter_true_none by done. apply true_divide_zero. lia.
Qed.

Lemma motion_row_empty (confound_file : string) (metrics : dict (dict cell)) :
  read_framewise_displacement confound_file = [] ->
  motion confound_file metrics = Raise ZeroDivisionError.
Proof. intros H. unfold motion_row. by rewrite H. Qed.

Lemma motion_row_error (confound_file : string) (metrics : dict (dict cell)) (e : exn) :
  motion confound_file metrics = Raise e -> e = ZeroDivisionError.
Proof.
  unfold motion_row, proportion.
  destruct (_ <$> read_framewise_displacement confound_file); [|done].
  destruct (decide _); [|done]. by intros [= <-].
Qed.

Lemma motion_loop_empty (confounds : list string) (file : string)
    (metrics : dict (dict cell)) :
  file ∈ confounds -> read_framewise_displacement file = [] ->
  for_each motion confounds metrics = Raise ZeroDivisionError.
Proof.
  intros Hin Hempty. revert metrics.
  induction confounds as [|f confounds IH]; intros metrics; [by apply elem_of_nil in Hin|].
  simpl. destruct (motion f metrics) as [m|e] eqn:E; simpl.
  - apply elem_of_cons in Hin as [->|Hin]; [|by apply IH].
    by rewrite motion_row_empty in E.
  - by apply motion_row_error in E as ->.
Qed.

(** X8: a confounds table without a single volume, among those that the
    layout lists, stops the whole call with the [ZeroDivisionError] of
    [0 / 0] on Python integers. *)
Theorem functional_table_empty_confounds (subjects task : list string)
    (layout : BIDSLayout) (reference_masks : gmap string niimg) (file : string) :
  file ∈ layout (confounds_filter subjects task) ->
  read_framewise_displacement file = [] ->
  functional_table subjects task layout reference_masks = Raise ZeroDivisionError.
Proof.
  intros Hin Hempty. unfold calculate_functional_metrics.
  by rewrite (motion_loop_empty _ file).
Qed.

Lemma motion_row_NoDup (file : string) (metrics metrics' : dict (dict cell)) :
  motion file metrics = Ok metrics' -> NoDup metrics.*1 -> NoDup metrics'.*1.
Proof.
  unfold motion_row. destruct (proportion _ _); [|done]. simpl.
  intros [= <-]. apply dict_set_NoDup.
Qed.

Lemma functional_dice_row_NoDup (reference_masks : gmap string niimg) (file : string)
    (metrics metrics' : dict (dict cell)) :
  functional_dice_row read_nifti resample_to_img reference_masks file metrics = Ok metrics' ->
  NoDup metrics.*1 -> NoDup metrics'.*1.
Proof.
  unfold functional_dice_row. destruct (reference _ _); [|done]. simpl.
  destruct (_dice_coefficient _ _ _ _); [|done]. simpl.
  destruct (dict_get _ metrics); intros [= <-]; apply dict_set_NoDup.
Qed.

(** X9: a functional table that the call returns has its identifiers
    in ascending order, none of them twice. *)
Theorem functional_table_rows (subjects task : list string) (layout : BIDSLayout)
    (reference_masks : gmap string niimg) (table : DataFrame) :
  functional_table subjects task layout reference_masks = Ok table ->
  Sorted String.le (index table) /\ NoDup (index table).
Proof.
  unfold calculate_functional_metrics.
  destruct (for_each motion _ []) as [m1|] eqn:E1; [|done]. cbn [mbind outcome_bind].
  destruct (for_each (functional_dice_row _ _ _) _ m1) as [m2|] eqn:E2; [|done].
  cbn [mbind outcome_bind]. intros [= <-].
  split; [apply sort_index_sorted|].
  rewrite sort_index_Permutation. cbn [DataFrame_T index]. unfold dict_keys.
  eapply (for_each_invariant (fun m => NoDup m.*1)); [| |exact E2].
  - intros f s s'. apply functional_dice_row_NoDup.
  - eapply (for_each_invariant (fun m => NoDup m.*1)); [| |exact E1].
    + intros f s s'. apply motion_row_NoDup.
    + constructor.
Qed.
End FunctionalTable.

(** ** The combined table *)

Lemma mapM_as_bool (l : list bool) : mapM as_bool (VBool <$> l) = Some l.
Proof. apply mapM_Some. induction l; constructor; auto. Qed.

Abbreviation anat_qc_of a q :=
  (fun id : string => (id, [("anatomical_dice", a id : cell); ("pass_anat_qc", q id : cell)])).

Lemma anat_qc_row_found (am : DataFrame) (a q : cell) (id : string)
    (acc : dict (dict cell)) :
  loc am (subject_of id) "anatomical_dice" = Ok a ->
  loc am (subject_of id) "pass_qc" = Ok q ->
  anat_qc_row am id acc
  = Ok (dict_set id [("anatomical_dice", a); ("pass_anat_qc", q)] acc).
Proof. intros Ha Hq. unfold anat_qc_row. by rewrite Ha, Hq. Qed.

Lemma anat_qc_loop (am : DataFrame) (a q : string -> cell) (ids : list string)
    (acc : dict (dict cell)) :
  (forall id, id ∈ ids ->
     loc am (subject_of id) "anatomical_dice" = Ok (a id) /\
     loc am (subject_of id) "pass_qc" = Ok (q id)) ->
  NoDup (acc.*1 ++ ids) ->
  for_each (anat_qc_row am) ids acc = Ok (acc ++ (anat_qc_of a q <$> ids)).
Proof.
  revert acc. induction ids as [|id ids IH]; intros acc Hloc Hnd.
  - by rewrite app_nil_r.
  - cbn [for_each]. destruct (Hloc id) as [Ha Hq]; [left|].
    rewrite (anat_qc_row_found am _ _ id acc Ha Hq). cbn [mbind outcome_bind].
    rewrite dict_set_fresh; cycle 1.
    { apply NoDup_app in Hnd as (_ & Hdisj & _). intros H. apply (Hdisj _ H). left. }
    rewrite IH.
    + by rewrite <- app_assoc.
    + intros id' Hid'. apply Hloc. by right.
    + rewrite fmap_app. simpl. by rewrite <- app_assoc.
Qed.

Lemma anat_qc_frame (a q : string -> cell) (ids : list string) :
  ids <> [] ->
  DataFrame_T (anat_qc_of a q <$> ids)
  = Frame None ids [("anatomical_dice", a <$> ids); ("pass_anat_qc", q <$> ids)].
Proof.
  intros Hne. unfold DataFrame_T, dict_keys.
  rewrite (inner_keys_same _ ["anatomical_dice"; "pass_anat_qc"]).
  - rewrite <- list_fmap_compose. simpl. rewrite list_fmap_id.
    by rewrite <- !list_fmap_compose.
  - compute_done.
  - by destruct ids.
  - apply Forall_fmap, Forall_forall. done.
Qed.

Lemma columns_setitem (df : DataFrame) (c : string) (s : Series) :
  columns (setitem df c s) = dict_set c s (columns df).
Proof. reflexivity. Qed.

Lemma index_setitem (df : DataFrame) (c : string) (s : Series) :
  index (setitem df c s) = index df.
Proof. reflexivity. Qed.

Lemma index_name_setitem (df : DataFrame) (c : string) (s : Series) :
  index_name (setitem df c s) = index_name df.
Proof. reflexivity. Qed.

Section DecisionTable.
Variable object_sum_int : Series -> outcome Z.
Abbreviation quality := (quality_accessments object_sum_int).

Lemma pass_func_qc_missing (df : DataFrame) (c : string) :
  c ∈ ["mean_fd_raw"; "proportion_kept"; "functional_dice"] ->
  dict_get c (columns df) = None ->
  raises (pass_func_qc df).
Proof.
  intros Hc Hnone. unfold pass_func_qc, getitem, dict_item.
  repeat (apply elem_of_cons in Hc as [->|Hc]); [| | |by apply elem_of_nil in Hc].
  - by rewrite Hnone.
  - destruct (dict_get "mean_fd_raw" _); [|done]. simpl.
    destruct (series_lt _ _); [|done]. simpl. by rewrite Hnone.
  - destruct (dict_get "mean_fd_raw" _); [|done]. simpl.
    destruct (series_lt _ _); [|done]. simpl.
    destruct (dict_get "proportion_kept" _); [|done]. simpl.
    destruct (series_gt _ _); [|done]. simpl. by rewrite Hnone.
Qed.

Lemma quality_accessments_raise (fm am : ref) (σ : store) (e : exn) :
  pass_func_qc (σ !!! fm) = Raise e -> quality fm am σ = (σ, Raise e).
Proof.
  intros H. unfold quality_accessments, deref, lift, mbind, M_bind. by rewrite H.
Qed.

(** X12: when one of the three metric columns is missing from the
    functional table, the call raises and assigns nothing. *)
Theorem quality_accessments_missing_column (fm am : ref) (σ : store) (c : string) :
  c ∈ ["mean_fd_raw"; "proportion_kept"; "functional_dice"] ->
  dict_get c (columns (σ !!! fm)) = None ->
  raises (quality fm am σ).2 /\ (quality fm am σ).1 = σ.
Proof.
  intros Hc Hnone. pose proof (pass_func_qc_missing _ c Hc Hnone) as H.
  destruct (pass_func_qc (σ !!! fm)) as [|e] eqn:E; [done|].
  by rewrite (quality_accessments_raise _ _ _ e).
Qed.

(** X13: a row with a missing value (a NaN) in one of the three metrics
    fails the functional tests. *)
Theorem pass_func_qc_missing_value (fm am : ref) (σ : store) (xs ys zs : list float)
    (i : nat) (x y z : float) :
  getitem (σ !!! fm) "mean_fd_raw" = Ok (VFloat <$> xs) ->
  getitem (σ !!! fm) "proportion_kept" = Ok (VFloat <$> ys) ->
  getitem (σ !!! fm) "functional_dice" = Ok (VFloat <$> zs) ->
  xs !! i = Some x -> ys !! i = Some y -> zs !! i = Some z ->
  is_nan x = true \/ is_nan y = true \/ is_nan z = true ->
  exists p,
    getitem ((quality fm am σ).1 !!! fm) "pass_func_qc" = Ok p /\
    p !! i = Some (VBool false).
Proof.
  intros Hx Hy Hz Hxi Hyi Hzi Hnan.
  pose proof (pass_func_qc_floats _ _ _ _ Hx Hy Hz) as Hp.
  eexists. split.
  - rewrite quality_accessments_store. unfold after_pass_func_qc.
    rewrite Hp, lookup_total_insert_eq. apply getitem_setitem_eq.
  - rewrite list_lookup_fmap, !lookup_zip_with, !list_lookup_fmap, Hxi, Hyi, Hzi.
    simpl. do 2 f_equal.
    destruct Hnan as [H|[H|H]].
    + by rewrite (ltb_nan_l x).
    + rewrite (ltb_nan_r _ y) by done. by rewrite andb_false_r.
    + rewrite (ltb_nan_r _ z) by done. by rewrite andb_false_r.
Qed.

(** X14: on a functional table without a row, with the three metric
    columns, the loop builds nothing, the combined table has no
    [pass_anat_qc] column and the call raises [KeyError], with
    [pass_func_qc] already assigned. *)
Theorem quality_accessments_no_row (fm am : ref) (σ : store) (p : Series) :
  index (σ !!! fm) = [] ->
  pass_func_qc (σ !!! fm) = Ok p ->
  dict_get "pass_anat_qc" (columns (σ !!! fm)) = None ->
  quality fm am σ
  = (<[fm := setitem (σ !!! fm) "pass_func_qc" p]> σ, Raise (KeyError "pass_anat_qc")).
Proof.
  intros Hidx Hp Hnone.
  apply injective_projections.
  - rewrite quality_accessments_store. unfold after_pass_func_qc. by rewrite Hp.
  - rewrite (quality_accessments_result _ _ _ _ _ Hp). cbn [fst snd]. cbv zeta.
    rewrite lookup_total_insert_eq. cbn [index setitem]. rewrite Hidx.
    cbn [for_each mret outcome_ret mbind outcome_bind].
    unfold combined_table, concat_columns. cbn [index DataFrame_T dict_keys fmap list_fmap].
    unfold setitem. cbn [index index_name columns].
    rewrite Hidx. rewrite decide_True by done. cbn [mbind outcome_bind].
    unfold getitem, dict_item. cbn [columns inner_keys foldl fmap list_fmap].
    rewrite app_nil_r, dict_get_set_eq. cbn [mbind outcome_bind].
    by rewrite dict_get_set_ne, Hnone.
Qed.

(** X15: on a functional table of float metrics, with distinct
    identifiers, a row at least and no [pass_anat_qc] column, whose
    subjects all have their two cells in the anatomical table (another
    frame), the call returns the combined table on the rows of the
    functional one, with the [pass_qc] of each subject in [pass_anat_qc]
    and the conjunction of the three thresholds and of [pass_qc] in
    [pass_all_qc]. *)
Theorem quality_accessments_table (fm am : ref) (σ : store)
    (xs ys zs : list float) (a : string -> cell) (q : string -> bool) :
  fm <> am ->
  getitem (σ !!! fm) "mean_fd_raw" = Ok (VFloat <$> xs) ->
  getitem (σ !!! fm) "proportion_kept" = Ok (VFloat <$> ys) ->
  getitem (σ !!! fm) "functional_dice" = Ok (VFloat <$> zs) ->
  dict_get "pass_anat_qc" (columns (σ !!! fm)) = None ->
  NoDup (index (σ !!! fm)) ->
  index (σ !!! fm) <> [] ->
  (forall id, id ∈ index (σ !!! fm) ->
     loc (σ !!! am) (subject_of id) "anatomical_dice" = Ok (a id) /\
     loc (σ !!! am) (subject_of id) "pass_qc" = Ok (VBool (q id))) ->
  exists metrics pass_all_qc,
    (quality fm am σ).2 = Ok metrics /\
    index metrics = index (σ !!! fm) /\
    getitem metrics "pass_anat_qc" = Ok ((fun id => VBool (q id)) <$> index (σ !!! fm)) /\
    getitem metrics "pass_all_qc" = Ok pass_all_qc /\
    forall i id x y z,
      index (σ !!! fm) !! i = Some id ->
      xs !! i = Some x -> ys !! i = Some y -> zs !! i = Some z ->
      pass_all_qc !! i
      = Some (VBool ((x <? 0.55)%float && (0.5 <? y)%float && (0.89 <? z)%float && q id)).
Proof.
  intros Hne Hx Hy Hz Hnone Hnd Hrows Hloc.
  pose proof (pass_func_qc_floats _ _ _ _ Hx Hy Hz) as Hp.
  set (pf := zip_with andb
          (zip_with andb ((fun x => x <? 0.55)%float <$> xs)
                         ((fun y => 0.5 <? y)%float <$> ys))
          ((fun z => 0.89 <? z)%float <$> zs)) in *.
  set (ids := index (σ !!! fm)) in *.
  eexists _, _. split.
  { rewrite (quality_accessments_result _ _ _ _ _ Hp). cbv zeta.
    rewrite lookup_total_insert_eq, lookup_total_insert_ne by done.
    cbn [index setitem]. fold ids.
    rewrite (anat_qc_loop _ a (fun id => VBool (q id))); [|done|by simpl].
    cbn [mbind outcome_bind app].
    unfold combined_table. rewrite anat_qc_frame by done.
    unfold concat_columns. cbn [index index_name columns]. fold ids.
    rewrite decide_True by done. cbn [mbind outcome_bind].
    unfold getitem at 1 2, dict_item. cbn [columns].
    rewrite !columns_setitem, index_setitem, !index_name_setitem. fold ids.
    rewrite (dict_get_app_l "pass_func_qc" (VBool <$> pf)) by apply dict_get_set_eq.
    cbn [mbind outcome_bind].
    rewrite (dict_get_app_None "pass_anat_qc") by (by rewrite dict_get_set_ne).
    change (dict_get "pass_anat_qc" [("anatomical_dice", a <$> ids); ("pass_anat_qc", ?s)])
      with (Some s).
    cbn [mbind outcome_bind].
    rewrite (list_fmap_compose q VBool), series_mul_bools. cbn [mbind outcome_bind].
    unfold int_sum. rewrite mapM_as_bool. reflexivity. }
  split; [reflexivity|]. split; [|split].
  - rewrite getitem_setitem_ne by done. apply getitem_Ok. cbn [columns].
    rewrite dict_get_app_None by (by rewrite dict_get_set_ne).
    by rewrite (list_fmap_compose q VBool).
  - apply getitem_setitem_eq.
  - intros i id x y z Hid Hxi Hyi Hzi. unfold pf.
    rewrite list_lookup_fmap, !lookup_zip_with, !list_lookup_fmap, Hxi, Hyi, Hzi, Hid.
    reflexivity.
Qed.
End DecisionTable.

(** ** The parser on other tables *)

Lemma width_ge (rows : list (list string)) (row : list string) :
  row ∈ rows -> (length row <= foldr Nat.max 0%nat (length <$> rows))%nat.
Proof.
  induction rows as [|r rows IH]; intros Hin; [by apply elem_of_nil in Hin|].
  rewrite fmap_cons. cbn [foldr].
  apply elem_of_cons in Hin as [<-|Hin]; [lia|]. specialize (IH Hin). lia.
Qed.

Lemma first_lookup {A : Type} (l : list A) (x : A) : l !! 0%nat = Some x -> first l = Ok x.
Proof. destruct l; [done|]. simpl. by intros [= ->]. Qed.


(** X16: on a table without a row the call raises [IndexError], with the
    name of the index already set. *)
Theorem parse_scan_information_no_row (r : ref) (σ : store) :
  index (σ !!! r) = [] ->
  parse_scan_information r σ
  = (<[r := Frame (Some "identifier") [] (columns (σ !!! r))]> σ, Raise IndexError).
Proof.
  intros H. unfold parse_scan_information, set_index_name, assign, deref, lift, mbind, M_bind.
  simpl. rewrite lookup_total_insert_eq, H. reflexivity.
Qed.

(** X17: an identifier with more [_]-separated tokens than the first one
    makes the assignment of the entity columns raise [ValueError]. *)
Theorem parse_scan_information_longer_row (r : ref) (σ : store) (id0 id : string) :
  index (σ !!! r) !! 0%nat = Some id0 ->
  id ∈ index (σ !!! r) ->
  (length (str_split "_" id0) < length (str_split "_" id))%nat ->
  (parse_scan_information r σ).2 = Raise ValueError.
Proof.
  intros H0 Hin Hlen. rewrite parse_scan_information_result.
  unfold parsed_table. cbn [index columns index_name].
  rewrite (first_lookup _ _ H0). cbn [mbind outcome_bind]. cbv zeta.
  unfold getitem at 1, dict_item. cbn [columns dict_get].
  rewrite decide_True by done. cbn [mbind outcome_bind].
  unfold setitem_columns. rewrite decide_False; [done|].
  unfold str_split_expand, headers_of. rewrite !length_fmap, length_seq.
  assert (cell_tokens "_" <$> (VStr <$> index (σ !!! r)) = str_split "_" <$> index (σ !!! r))
    as -> by (by rewrite <- list_fmap_compose).
  assert (str_split "_" id ∈ str_split "_" <$> index (σ !!! r)) as Hw
    by (apply list_elem_of_fmap; by exists id).
  apply width_ge in Hw. lia.
Qed.



(** ** Scans with a confounds file and a mask *)

Lemma sort_index_columns (df : DataFrame) : (columns (sort_index df)).*1 = (columns df).*1.
Proof. unfold sort_index. cbn [columns]. by rewrite <- list_fmap_compose. Qed.

Lemma DataFrame_T_columns (d : dict (dict cell)) : (columns (DataFrame_T d)).*1 = inner_keys d.
Proof.
  unfold DataFrame_T. cbn [columns]. rewrite <- list_fmap_compose. apply list_fmap_id.
Qed.

Lemma dict_set_present {V : Type} (k : string) (v w : V) (pre rest : dict V) :
  k ∉ pre.*1 -> dict_set k v (pre ++ (k, w) :: rest) = pre ++ (k, v) :: rest.
Proof.
  intros H. rewrite dict_set_app_r by done. cbn [dict_set]. by rewrite decide_True.
Qed.

Lemma dict_get_present {V : Type} (k : string) (w : V) (pre rest : dict V) :
  k ∉ pre.*1 -> dict_get k (pre ++ (k, w) :: rest) = Some w.
Proof.
  intros H. rewrite dict_get_app_r by done. cbn [dict_get]. by rewrite decide_True.
Qed.

Lemma loc_cell (nm : option string) (keys : list string) (cols : dict Series)
    (r c : string) (i : nat) (s : Series) (x : cell) :
  get_loc r keys = Some i -> dict_get c cols = Some s -> s !! i = Some x ->
  loc (Frame nm keys cols) r c = Ok x.
Proof.
  intros Hi Hc Hx. unfold loc, getitem, dict_item. cbn [columns index].
  rewrite Hc, Hi. cbn [mbind outcome_bind]. by rewrite Hx.
Qed.

Section JoinedTable.
Variable read_nifti : string -> image.
Variable resample_to_img : image -> image -> image.
Variable read_framewise_displacement : string -> list float.
Variable np_nanmean : list float -> float.

Abbreviation kept_of file :=
  ((fun x => (x <? 0.2)%float) <$> read_framewise_displacement file).
Abbreviation motion_cells file :=
  [("mean_fd_raw", VFloat (np_nanmean (read_framewise_displacement file)));
   ("mean_fd_scrubbed",
    VFloat (np_nanmean (compress (kept_of file) (read_framewise_displacement file))));
   ("proportion_kept",
    VFloat (true_divide (np_sum (kept_of file))
              (Z.of_nat (length (read_framewise_displacement file)))))].

Lemma motion_row_cells (file : string) (metrics : dict (dict cell)) :
  read_framewise_displacement file <> [] ->
  motion_row read_framewise_displacement np_nanmean file metrics
  = Ok (dict_set (confounds_identifier file) (motion_cells file) metrics).
Proof.
  intros Hne. unfold motion_row, proportion.
  by destruct (read_framewise_displacement file).
Qed.

Lemma motion_loop_cells (files : list string) (acc : dict (dict cell)) :
  Forall (fun f => read_framewise_displacement f <> []) files ->
  NoDup (acc.*1 ++ (confounds_identifier <$> files)) ->
  for_each (motion_row read_framewise_displacement np_nanmean) files acc
  = Ok (acc ++ ((fun f => (confounds_identifier f, motion_cells f)) <$> files)).
Proof.
  intros H. revert acc. induction H as [|f files Hf _ IH]; intros acc Hnd.
  - by rewrite app_nil_r.
  - cbn [for_each]. rewrite motion_row_cells by done. cbn [mbind outcome_bind].
    rewrite dict_set_fresh; cycle 1.
    { apply NoDup_app in Hnd as (_ & Hdisj & _). intros Hin. apply (Hdisj _ Hin). left. }
    rewrite IH.
    + by rewrite <- app_assoc.
    + rewrite fmap_app. simpl. by rewrite <- app_assoc.
Qed.

Lemma functional_dice_row_step (reference_masks : gmap string niimg) (mask : niimg)
    (d : float) (file : string) (metrics : dict (dict cell)) :
  reference_masks !! "func" = Some mask ->
  _dice_coefficient read_nifti resample_to_img (Path file) mask = Ok d ->
  functional_dice_row read_nifti resample_to_img reference_masks file metrics
  = Ok (dict_set (mask_identifier file)
          (match dict_get (mask_identifier file) metrics with
           | Some row => dict_update row [("functional_dice", VFloat d)]
           | None => [("functional_dice", VFloat d)]
           end) metrics).
Proof.
  intros Hmask Hdice. unfold functional_dice_row, reference. rewrite Hmask.
  cbn [mbind outcome_bind]. rewrite Hdice. cbn [mbind outcome_bind].
  fold (mask_identifier file). by destruct (dict_get _ metrics).
Qed.

Lemma dice_loop_cells (reference_masks : gmap string niimg) (mask : niimg)
    (score : string -> float) (scans : list (string * string))
    (pre : dict (dict cell)) :
  reference_masks !! "func" = Some mask ->
  Forall (fun s => confounds_identifier s.1 = mask_identifier s.2 /\
                   _dice_coefficient read_nifti resample_to_img (Path s.2) mask
                   = Ok (score s.2)) scans ->
  NoDup (pre.*1 ++ (confounds_identifier <$> scans.*1)) ->
  for_each (functional_dice_row read_nifti resample_to_img reference_masks) scans.*2
    (pre ++ ((fun f => (confounds_identifier f, motion_cells f)) <$> scans.*1))
  = Ok (pre ++ ((fun s => (confounds_identifier s.1,
                           motion_cells s.1 ++ [("functional_dice", VFloat (score s.2))]))
                  <$> scans)).
Proof.
  intros Hmask H. revert pre. induction H as [|[cf ff] scans [Hid Hdice] _ IH]; intros pre Hnd.
  - done.
  - rewrite !fmap_cons. cbn [fst snd] in *. cbn [for_each].
    assert (confounds_identifier cf ∉ pre.*1) as Hfresh.
    { apply NoDup_app in Hnd as (_ & Hdisj & _). intros Hin. apply (Hdisj _ Hin). left. }
    rewrite (functional_dice_row_step _ mask (score ff)) by done.
    rewrite <- Hid, dict_get_present, dict_set_present by done.
    cbn [mbind outcome_bind].
    change (dict_update (motion_cells cf) [("functional_dice", VFloat (score ff))])
      with (motion_cells cf ++ [("functional_dice", VFloat (score ff))]).
    rewrite (cons_middle _ pre), app_assoc.
    rewrite IH; [by rewrite <- app_assoc|].
    rewrite fmap_app. simpl. by rewrite <- app_assoc.
Qed.

(** X10: when the layout lists a confounds file and a mask for every
    scan, the scans in one order in its two lists and each under one
    identifier that no other scan has, every confounds
    table has a volume and every coefficient is computed, the table has
    one row per scan, with the three motion metrics of its confounds file
    and the Dice coefficient of its mask. *)
Theorem functional_table_joined (subjects task : list string) (layout : BIDSLayout)
    (reference_masks : gmap string niimg) (mask : niimg) (score : string -> float)
    (scans : list (string * string)) :
  layout (confounds_filter subjects task) = scans.*1 ->
  layout (func_filter subjects task) = scans.*2 ->
  NoDup (confounds_identifier <$> scans.*1) ->
  reference_masks !! "func" = Some mask ->
  (forall s, s ∈ scans ->
     read_framewise_displacement s.1 <> [] /\
     confounds_identifier s.1 = mask_identifier s.2 /\
     _dice_coefficient read_nifti resample_to_img (Path s.2) mask = Ok (score s.2)) ->
  exists table,
    calculate_functional_metrics read_nifti resample_to_img
      read_framewise_displacement np_nanmean subjects task layout reference_masks
    = Ok table /\
    index table ≡ₚ confounds_identifier <$> scans.*1 /\
    forall s, s ∈ scans ->
      let fd := read_framewise_displacement s.1 in
      let kept := (fun x => (x <? 0.2)%float) <$> fd in
      loc table (confounds_identifier s.1) "mean_fd_raw" = Ok (VFloat (np_nanmean fd)) /\
      loc table (confounds_identifier s.1) "mean_fd_scrubbed"
      = Ok (VFloat (np_nanmean (compress kept fd))) /\
      loc table (confounds_identifier s.1) "proportion_kept"
      = Ok (VFloat (true_divide (np_sum kept) (Z.of_nat (length fd)))) /\
      loc table (confounds_identifier s.1) "functional_dice" = Ok (VFloat (score s.2)).
Proof.
  intros Hconfounds Hmasks Hnd Hmask Hscans.
  unfold calculate_functional_metrics. rewrite Hconfounds, Hmasks.
  rewrite (motion_loop_cells _ []); cycle 1.
  { apply Forall_fmap, Forall_forall. intros s Hs. by apply Hscans. }
  { done. }
  cbn [mbind outcome_bind app].
  pose proof (dice_loop_cells reference_masks mask score scans [] Hmask) as Hloop.
  cbn [app fmap list_fmap] in Hloop. rewrite Hloop; cycle 1.
  { apply Forall_forall. intros s Hs. by apply Hscans. }
  { done. }
  clear Hloop. cbn [mbind outcome_bind].
  eexists. split; [reflexivity|].
  set (rows := (fun s : string * string => _) <$> scans).
  assert (rows.*1 = confounds_identifier <$> scans.*1) as Hkeys.
  { unfold rows. by rewrite <- !list_fmap_compose. }
  split.
  { rewrite sort_index_Permutation. cbn [DataFrame_T index]. unfold dict_keys.
    by rewrite Hkeys. }
  intros s Hs. cbv zeta.
  assert (rows <> []) as Hrows.
  { unfold rows. destruct scans; [by apply elem_of_nil in Hs|done]. }
  assert (inner_keys rows
          = ["mean_fd_raw"; "mean_fd_scrubbed"; "proportion_kept"; "functional_dice"]) as Hcols.
  { apply inner_keys_same; [compute_done|done|].
    unfold rows. apply Forall_fmap, Forall_forall. by intros [cf ff] _. }
  assert (forall column : string, loc (sort_index (DataFrame_T rows))
            (confounds_identifier s.1) column
          = loc (DataFrame_T rows) (confounds_identifier s.1) column) as Hloc.
  { intros column. apply loc_sort_index.
    - cbn [DataFrame_T index]. unfold dict_keys. by rewrite Hkeys.
    - unfold aligned, DataFrame_T. cbn [columns index].
      apply Forall_fmap, Forall_forall. intros k _. unfold compose. cbn [snd].
      unfold dict_keys. by rewrite !length_fmap. }
  rewrite !Hloc. unfold DataFrame_T. rewrite Hcols.
  assert (get_loc (confounds_identifier s.1) (dict_keys rows) <> None) as Hrow.
  { destruct (get_loc_elem_of (confounds_identifier s.1) (dict_keys rows)) as [i Hi].
    - unfold dict_keys. rewrite Hkeys. apply list_elem_of_fmap. exists s.1.
      split; [done|]. apply list_elem_of_fmap. by exists s.
    - by rewrite Hi. }
  destruct (get_loc (confounds_identifier s.1) (dict_keys rows)) as [i|] eqn:Hi; [|done].
  apply get_loc_lookup in Hi as Hi'. unfold dict_keys in Hi'.
  rewrite list_lookup_fmap in Hi'.
  destruct (rows !! i) as [[id row]|] eqn:Ei; [|done]. injection Hi' as Hid.
  unfold rows in Ei. rewrite list_lookup_fmap in Ei.
  destruct (scans !! i) as [s'|] eqn:Es; [|done]. injection Ei as Hid' Hrow'.
  assert (s' = s) as ->.
  { apply list_elem_of_lookup in Hs as [i' Hs'].
    assert (i = i') as <-; [|congruence].
    apply (NoDup_lookup _ _ _ (confounds_identifier s.1) Hnd).
    - rewrite !list_lookup_fmap, Es. simpl. congruence.
    - by rewrite !list_lookup_fmap, Hs'. }
  repeat split.
  all: eapply loc_cell; [exact Hi|reflexivity|].
  all: unfold rows; rewrite !list_lookup_fmap, Es; reflexivity.
Qed.
End JoinedTable.

Lemma functional_dice_row_keys (read_nifti : string -> image)
    (resample_to_img : image -> image -> image)
    (reference_masks : gmap string niimg) (file : string)
    (metrics metrics' : dict (dict cell)) :
  functional_dice_row read_nifti resample_to_img reference_masks file metrics = Ok metrics' ->
  Forall (fun row => row.2.*1 = ["functional_dice"]) metrics ->
  Forall (fun row => row.2.*1 = ["functional_dice"]) metrics'.
Proof.
  unfold functional_dice_row. destruct (reference _ _); [|done]. cbn [mbind outcome_bind].
  destruct (_dice_coefficient _ _ _ _) as [d|]; [|done]. cbn [mbind outcome_bind].
  destruct (dict_get _ metrics) as [row|] eqn:E; intros [= <-] H.
  - apply dict_set_Forall; [|done]. cbn [snd dict_update foldl fst].
    apply dict_get_elem_of in E.
    apply (proj1 (Forall_forall _ _) H) in E. cbn [snd] in E.
    rewrite dict_set_keys, E. by rewrite decide_True by left.
  - by apply dict_set_Forall.
Qed.

Lemma inner_keys_nil {V : Type} : inner_keys (@nil (string * dict V)) = [].
Proof. reflexivity. Qed.

(** X11: when the layout lists no confounds file, a functional table
    that the call returns holds at most the [functional_dice] column (no
    row and no column without a mask either), and [quality_accessments]
    stops on it at its first column lookup and assigns nothing. *)
Theorem functional_table_without_confounds (read_nifti : string -> image)
    (resample_to_img : image -> image -> image)
    (read_framewise_displacement : string -> list float)
    (np_nanmean : list float -> float)
    (subjects task : list string) (layout : BIDSLayout)
    (reference_masks : gmap string niimg) (table : DataFrame) :
  layout (confounds_filter subjects task) = [] ->
  calculate_functional_metrics read_nifti resample_to_img
    read_framewise_displacement np_nanmean subjects task layout reference_masks
  = Ok table ->
  (layout (func_filter subjects task) = [] -> table = Frame None [] []) /\
  (columns table).*1 ⊆ ["functional_dice"] /\
  forall (object_sum_int : Series -> outcome Z) (σ : store) (fm am : ref),
    σ !!! fm = table ->
    quality_accessments object_sum_int fm am σ = (σ, Raise (KeyError "mean_fd_raw")).
Proof.
  intros Hconfounds. unfold calculate_functional_metrics. rewrite Hconfounds.
  cbn [for_each mret outcome_ret mbind outcome_bind].
  destruct (for_each _ _ []) as [metrics|] eqn:E; [|done]. cbn [mbind outcome_bind].
  intros [= <-].
  assert ((columns (sort_index (DataFrame_T metrics))).*1 ⊆ ["functional_dice"]) as Hcols.
  { rewrite sort_index_columns, DataFrame_T_columns.
    assert (Forall (fun row => row.2.*1 = ["functional_dice"]) metrics) as Hrows.
    { eapply (for_each_invariant (fun m => Forall (fun row => row.2.*1 = ["functional_dice"]) m));
        [| |exact E].
      - intros f s s'. apply functional_dice_row_keys.
      - constructor. }
    destruct metrics as [|row metrics]; [rewrite inner_keys_nil; apply list_subseteq_nil|].
    rewrite (inner_keys_same _ ["functional_dice"]); [reflexivity| |done|done].
    apply NoDup_singleton. }
  split; [|split; [done|]].
  - intros Hmasks. rewrite Hmasks in E. by injection E as <-.
  - intros object_sum_int σ fm am Hfm.
    apply quality_accessments_raise. rewrite Hfm. unfold pass_func_qc.
    assert (getitem (sort_index (DataFrame_T metrics)) "mean_fd_raw"
            = Raise (KeyError "mean_fd_raw")) as ->; [|done].
    unfold getitem, dict_item. rewrite dict_get_None; [done|].
    intros Hin. apply Hcols in Hin. by apply list_elem_of_singleton in Hin.
Qed.

(** ** The reference masks *)

(** X20: the returned dict has the two entries [anat] and [func] and no
    other, so that the lookups of the two metric functions find their
    mask. *)
Theorem get_reference_mask_keys
    (templateflow_api_get : list string -> string -> string -> string -> string)
    (intersect_masks : list string -> float -> outcome image)
    (analysis_level : string) (subjects task : list string) (layout : BIDSLayout)
    (reference_masks : gmap string niimg) :
  get_reference_mask templateflow_api_get intersect_masks
    analysis_level subjects task layout = Ok reference_masks ->
  dom reference_masks = ({[ "anat"; "func" ]} : gset string) /\
  exists anat func,
    reference reference_masks "anat" = Ok anat /\
    reference reference_masks "func" = Ok func.
Proof.
  unfold get_reference_mask. cbv zeta.
  destruct (_ && _).
  - destruct (intersect_masks _ _) as [g|]; [|done]. cbn [mbind outcome_bind].
    intros [= <-]. split.
    + rewrite dom_insert_L, dom_singleton_L. set_solver.
    + eexists _, _. split; reflexivity.
  - intros [= <-]. split.
    + rewrite dom_insert_L, dom_singleton_L. set_solver.
    + eexists _, _. split; reflexivity.
Qed.

(** ** Identifiers *)

Lemma split_go_skip (sep cur p v : string) :
  split_go sep (String.length p) cur (p +:+ v) = split_go sep 0 cur v.
Proof.
  induction p as [|c p IH]; [done|]. rewrite append_cons. apply IH.
Qed.

Lemma split_go_absent (sep cur s : string) :
  str_contains sep s = false -> split_go sep 0 cur s = [cur +:+ s].
Proof.
  revert cur. induction s as [|c s IH]; intros cur.
  - intros _. simpl. by rewrite append_nil_r.
  - cbn [str_contains split_go]. intros [Hp Hs]%orb_false_elim.
    rewrite Hp, IH by done. by rewrite append_assoc.
Qed.

Lemma split_go_first (c : Ascii.ascii) (cur label tail : string) :
  str_contains (String c "") label = false ->
  tail = "" \/ (exists rest, tail = String c rest) ->
  hd "" (split_go (String c "") 0 cur (label +:+ tail)) = cur +:+ label.
Proof.
  revert cur. induction label as [|a label IH]; intros cur Hlabel Htail.
  - rewrite append_nil_l, append_nil_r. destruct Htail as [->|[rest ->]]; [done|].
    cbn [split_go String.prefix]. destruct (Ascii.ascii_dec c c); [|done].
    by rewrite prefix_nil.
  - rewrite append_cons. cbn [str_contains] in Hlabel.
    apply orb_false_elim in Hlabel as [Hp Hs].
    cbn [split_go]. cbn [String.prefix] in Hp |- *.
    destruct (Ascii.ascii_dec c a) as [->|Hne].
    + by rewrite prefix_nil in Hp.
    + rewrite IH by done. by rewrite append_assoc.
Qed.

Lemma split_go_prefix (sep cur v : string) :
  sep <> "" -> split_go sep 0 cur (sep +:+ v) = cur :: split_go sep 0 "" v.
Proof.
  intros Hsep. pose proof (prefix_app sep v) as Hpre.
  destruct sep as [|c p]; [done|].
  rewrite append_cons in Hpre |- *. cbn [split_go]. rewrite Hpre.
  cbn [String.length Nat.sub]. rewrite Nat.sub_0_r. by rewrite split_go_skip.
Qed.

(** X21: the subject of an identifier [sub-<label>], alone or followed by
    [_] and more entities, is the label, when the label has no [_] and
    [sub-] does not occur again. *)
Theorem subject_of_label (label tail : string) :
  str_contains "sub-" (label +:+ tail) = false ->
  str_contains "_" label = false ->
  tail = "" \/ (exists rest, tail = "_" +:+ rest) ->
  subject_of ("sub-" +:+ label +:+ tail) = label.
Proof.
  intros Hsub Hlabel Htail. unfold subject_of, split_last, split_first, str_split.
  assert (split_go "sub-" 0 "" ("sub-" +:+ label +:+ tail) = [""; label +:+ tail]) as ->.
  { rewrite split_go_prefix, split_go_absent by done. by rewrite append_nil_l. }
  cbn [List.last].
  rewrite split_go_first; [by rewrite append_nil_l|done|].
  destruct Htail as [->|[rest ->]]; [by left|right; by exists rest].
Qed.

Lemma split_go_last (c : Ascii.ascii) (cur dir name : string) :
  str_contains (String c "") name = false ->
  split_go (String c "") 0 cur (dir +:+ String c name)
  = split_go (String c "") 0 cur dir ++ [name].
Proof.
  intros Hname. revert cur. induction dir as [|a dir IH]; intros cur.
  - rewrite append_nil_l. change (String c name) with (String c "" +:+ name).
    rewrite (split_go_prefix (String c "") cur name), split_go_absent by done.
    by rewrite append_nil_l.
  - rewrite append_cons. cbn [split_go String.prefix].
    destruct (Ascii.ascii_dec c a) as [->|Hne].
    + rewrite !prefix_nil. cbn [String.length Nat.sub]. by rewrite IH.
    + apply IH.
Qed.

Lemma path_name_last (dir name : string) :
  name <> "" -> str_contains "/" name = false ->
  path_name (dir +:+ "/" +:+ name) = name.
Proof.
  intros Hne Hname. unfold path_name, str_split.
  pose proof (split_go_last _ "" dir name Hname) as Hsplit.
  rewrite append_cons, append_nil_l. rewrite Hsplit.
  rewrite filter_app, filter_cons_True by done.
  rewrite filter_nil. apply List.last_last.
Qed.

Lemma split_go_before (sep cur s tail : string) :
  sep <> "" -> starts_within sep s (sep +:+ tail) = false ->
  split_go sep 0 cur (s +:+ sep +:+ tail) = (cur +:+ s) :: split_go sep 0 "" tail.
Proof.
  intros Hsep. revert cur. induction s as [|a s IH]; intros cur Hs.
  - rewrite append_nil_l, append_nil_r. by apply split_go_prefix.
  - cbn [starts_within] in Hs. apply orb_false_elim in Hs as [Hp Hs].
    rewrite append_cons in Hp |- *. cbn [split_go]. rewrite Hp, IH by done.
    by rewrite append_assoc.
Qed.

Lemma append_not_nil (a b : string) : b <> "" -> a +:+ b <> "".
Proof. destruct a; [by rewrite append_nil_l|by rewrite append_cons]. Qed.

Lemma identifier_of_name (sep dir id rest : string) :
  sep <> "" ->
  str_contains "/" (id +:+ sep +:+ rest) = false ->
  starts_within sep id (sep +:+ rest) = false ->
  split_first sep (path_name (dir +:+ "/" +:+ id +:+ sep +:+ rest)) = id.
Proof.
  intros Hsep Hslash Hfirst.
  rewrite path_name_last; [|apply append_not_nil; by destruct sep|done].
  unfold split_first, str_split. rewrite split_go_before by done.
  cbn [hd]. by rewrite append_nil_l.
Qed.

(** X22: the confounds file and the mask of a scan get one identifier:
    the file name up to [_desc-confounds], and up to the [_space-] entity
    of the template, when these do not start earlier in the name. *)
Theorem scan_identifiers (dir dir' id rest rest' : string) :
  str_contains "/" (id +:+ "_desc-confounds" +:+ rest) = false ->
  str_contains "/" (id +:+ ("_space-" +:+ template) +:+ rest') = false ->
  starts_within "_desc-confounds" id ("_desc-confounds" +:+ rest) = false ->
  starts_within ("_space-" +:+ template) id (("_space-" +:+ template) +:+ rest') = false ->
  confounds_identifier (dir +:+ "/" +:+ id +:+ "_desc-confounds" +:+ rest) = id /\
  mask_identifier (dir' +:+ "/" +:+ id +:+ ("_space-" +:+ template) +:+ rest') = id.
Proof.
  intros Hslash Hslash' Hfirst Hfirst'. unfold confounds_identifier, mask_identifier.
  split; by apply identifier_of_name.
Qed.

(** ** Instances on the sample data *)

Lemma dice_symmetric_witness :
  exists d1 d2,
    _dice_coefficient no_file no_resampling (Nifti small_volume) (Nifti shifted_volume) = Ok d1
    /\ _dice_coefficient no_file no_resampling (Nifti shifted_volume) (Nifti small_volume) = Ok d2
    /\ d1 = d2 /\ (d1 =? d2)%float = true.
Proof.
  destruct (dice_symmetric no_file no_resampling (Nifti small_volume) (Nifti shifted_volume))
    as (d1 & d2 & H1 & H2 & Heq & Hset & _); [reflexivity|reflexivity|].
  exists d1, d2. split; [exact H1|]. split; [exact H2|]. split; [exact Heq|].
  apply Hset; [reflexivity|reflexivity|].
  exists 1%float. split; [apply list_elem_of_here|reflexivity].
Defined.

(** C7, as stated, fails: the coefficients of two empty masks on one grid,
    taken both ways, do not compare equal. *)
Lemma dice_of_empty_masks_not_equal :
  exists d1 d2,
    _dice_coefficient no_file no_resampling (Nifti empty_volume) (Nifti empty_volume) = Ok d1
    /\ _dice_coefficient no_file no_resampling (Nifti empty_volume) (Nifti empty_volume) = Ok d2
    /\ (d1 =? d2)%float = false.
Proof. exists nan, nan. repeat split. Qed.

(** C2, as stated, fails: the coefficient of two empty masks is not 0. *)
Lemma dice_of_empty_masks_not_zero :
  exists d,
    _dice_coefficient no_file no_resampling (Nifti empty_volume) (Nifti empty_volume) = Ok d
    /\ (d =? 0)%float = false /\ is_nan d = true.
Proof. exists nan. repeat split. Qed.

Lemma dice_of_empty_masks_witness :
  _dice_coefficient no_file no_resampling (Nifti empty_volume) (Nifti empty_volume) = Ok nan.
Proof.
  apply dice_of_empty_masks; [reflexivity| |];
    repeat (constructor; [reflexivity|]); constructor.
Defined.

Lemma pass_func_qc_thresholds_witness :
  exists p,
    getitem ((quality_accessments no_object_sum 0%nat 1%nat sample_store).1 !!! 0%nat)
            "pass_func_qc" = Ok p
    /\ p !! 0%nat = Some (VBool true) /\ p !! 2%nat = Some (VBool false).
Proof.
  destruct (pass_func_qc_thresholds no_object_sum 0%nat 1%nat sample_store
              [0.3; 0.6; 0.55]%float [0.8; 0.8; 0.8]%float [0.95; 0.95; 0.95]%float)
    as (p & Hp & _ & Hrows); [reflexivity..|].
  exists p. split; [exact Hp|]. split.
  - destruct (Hrows 0%nat 0.3%float 0.8%float 0.95%float eq_refl eq_refl eq_refl)
      as (b & -> & Hb & _).
    destruct Hb as [_ Hb]. by rewrite Hb.
  - destruct (Hrows 2%nat 0.55%float 0.8%float 0.95%float eq_refl eq_refl eq_refl)
      as (b & -> & _ & Hb).
    by rewrite Hb.
Defined.

(** C3, as stated, fails: after the calls the functional table has a
    column that it did not have, and the index a name that it did not
    have. *)
Lemma arguments_changed_by_call :
  getitem (sample_store !!! 0%nat) "pass_func_qc" = Raise (KeyError "pass_func_qc")
  /\ getitem ((quality_accessments no_object_sum 0%nat 1%nat sample_store).1 !!! 0%nat)
             "pass_func_qc"
     = Ok [VBool true; VBool false; VBool false]
  /\ index_name (sample_store !!! 0%nat) = None
  /\ index_name ((parse_scan_information 0%nat sample_store).1 !!! 0%nat)
     = Some "identifier".
Proof. repeat split. Qed.

Lemma calculate_anat_metrics_no_mask_witness :
  calculate_anat_metrics small_file no_resampling ["01"; "02"] sample_layout sample_masks
  = Raise IndexError.
Proof.
  destruct (calculate_anat_metrics_no_mask small_file no_resampling sample_layout
              sample_masks ["01"; "02"] "02") as [_ H]; [compute_done|reflexivity|].
  eapply (H ["01"] []); reflexivity.
Defined.

Lemma quality_accessments_unknown_subject_witness :
  exists k,
    (quality_accessments no_object_sum 0%nat 1%nat short_store).2 = Raise (KeyError k).
Proof.
  eapply (quality_accessments_unknown_subject no_object_sum 0%nat 1%nat short_store
            _ "sub-03_task-rest"); [reflexivity|compute_done|compute_done].
Defined.



Lemma missing_displacement_not_kept_witness :
  exists p,
    (p <? 1)%float = true
    /\ proportion [false; true; false] 3 = Ok p.
Proof.
  destruct (missing_displacement_not_kept sample_displacements sample_nanmean
              "sub-01_task-rest_desc-confounds_timeseries.tsv" [])
    as (_ & _ & p & Hlt & Hp & _).
  - exists nan. split; [apply list_elem_of_here|reflexivity].
  - reflexivity.
  - exists p. split; [exact Hlt|exact Hp].
Defined.

(** ** More instances on the sample data *)

Lemma get_reference_mask_func_witness :
  exists g m,
    get_reference_mask sample_templateflow study_vote "group" ["01"; "02"] ["rest"]
      study_layout = Ok m
    /\ m !! "func" = Some (Nifti g)
    /\ shape g = [2; 2; 2]%nat
    /\ voxel_set g 0 = false /\ voxel_set g 1 = true /\ voxel_set g 2 = false.
Proof.
  destruct (get_reference_mask_func study_file sample_templateflow study_vote
              "group" ["01"; "02"] ["rest"] study_layout)
    as (_ & _ & _ & _ & _ & Hvote).
  destruct (Hvote eq_refl (conj eq_refl (le_n 2))
              shifted_volume [small_volume] eq_refl)
    as (g & m & Hm & Hfunc & _ & Hshape & _ & Hvoxels).
  exists g, m. split; [exact Hm|]. split; [exact Hfunc|]. split; [exact Hshape|].
  split; [|split].
  - destruct (voxel_set g 0) eqn:E; [|done].
    apply (Hvoxels 0%nat) in E; vm_compute in E |- *; lia.
  - apply (Hvoxels 1%nat); vm_compute; lia.
  - destruct (voxel_set g 2) eqn:E; [|done].
    apply (Hvoxels 2%nat) in E; vm_compute in E |- *; lia.
Defined.

Lemma dice_in_unit_interval_witness :
  exists d,
    _dice_coefficient no_file no_resampling (Nifti small_volume) (Nifti shifted_volume) = Ok d
    /\ (0 <=? d)%float = true /\ (d <=? 1)%float = true.
Proof.
  apply (dice_in_unit_interval no_file no_resampling (Nifti small_volume) (Nifti shifted_volume));
    [reflexivity..|].
  exists 1%float. split; [apply list_elem_of_here|reflexivity].
Defined.

Lemma dice_of_itself_witness :
  _dice_coefficient no_file no_resampling (Nifti small_volume) (Nifti small_volume)
  = Ok 1%float.
Proof.
  apply (dice_of_itself no_file no_resampling (Nifti small_volume)).
  - repeat (constructor; [reflexivity|]). constructor.
  - reflexivity.
  - exists 1%float. split; [apply list_elem_of_here|reflexivity].
Defined.

Lemma dice_of_disjoint_masks_witness :
  _dice_coefficient no_file no_resampling (Nifti small_volume) (Nifti far_volume)
  = Ok 0%float.
Proof.
  apply (dice_of_disjoint_masks no_file no_resampling (Nifti small_volume) (Nifti far_volume));
    [reflexivity..| |].
  - repeat (constructor; [reflexivity|]). constructor.
  - exists 1%float. split; [apply list_elem_of_here|reflexivity].
Defined.

Lemma study_anat_scores :
  anat_scores study_file no_resampling study_layout sample_masks ["02"; "01"; "02"]
    study_anat_score.
Proof.
  exists (Nifti small_volume). split; [reflexivity|].
  intros sub Hsub. apply list_elem_of_In in Hsub. simpl in Hsub.
  destruct Hsub as [<-|[<-|[<-|[]]]]; eexists _, _; split; reflexivity.
Defined.

Lemma anat_table_rows_witness :
  exists table,
    calculate_anat_metrics study_file no_resampling ["02"; "01"; "02"] study_layout sample_masks
    = Ok table
    /\ Sorted String.le (index table)
    /\ NoDup (index table)
    /\ forall sub, sub ∈ index table <-> sub ∈ ["02"; "01"; "02"].
Proof.
  apply (anat_table_rows study_file no_resampling study_layout sample_masks study_anat_score).
  - exact study_anat_scores.
  - discriminate.
Defined.

Lemma anat_table_cells_witness :
  exists table,
    calculate_anat_metrics study_file no_resampling ["02"; "01"; "02"] study_layout sample_masks
    = Ok table
    /\ loc table "02" "anatomical_dice" = Ok (VFloat 0.5)
    /\ loc table "02" "pass_qc" = Ok (VBool false).
Proof.
  apply (anat_table_cells study_file no_resampling study_layout sample_masks study_anat_score
           ["02"; "01"; "02"] "02").
  - exact study_anat_scores.
  - apply list_elem_of_here.
Defined.

Lemma anat_table_first_match_witness :
  calculate_anat_metrics study_file no_resampling ["01"; "02"] study_layout sample_masks
  = calculate_anat_metrics study_file no_resampling ["01"; "02"]
      (fun q => study_layout q ++ ["/data/sub-01/anat/sub-01_run-2_desc-brain_mask.nii.gz"])
      sample_masks.
Proof.
  apply anat_table_first_match.
  intros sub Hsub. apply list_elem_of_In in Hsub. simpl in Hsub.
  destruct Hsub as [<-|[<-|[]]]; reflexivity.
Defined.

Lemma motion_proportion_witness :
  exists p,
    proportion [false; true; false] 3 = Ok p
    /\ (0 <=? p)%float = true /\ (p <=? 1)%float = true.
Proof.
  destruct (motion_proportion sample_displacements sample_nanmean
              "sub-01_task-rest_desc-confounds_timeseries.tsv" [])
    as (p & Hrow & H0 & H1 & _); [discriminate|reflexivity|].
  exists p. split; [|split; [exact H0|exact H1]].
  injection Hrow as Hp. vm_compute in Hp. vm_compute. congruence.
Defined.

Lemma functional_table_empty_confounds_witness :
  calculate_functional_metrics study_file no_resampling no_displacements sample_nanmean
    ["01"; "02"] ["rest"] study_layout sample_masks
  = Raise ZeroDivisionError.
Proof.
  apply (functional_table_empty_confounds study_file no_resampling no_displacements
           sample_nanmean ["01"; "02"] ["rest"] study_layout sample_masks
           "/data/sub-01/func/sub-01_task-rest_desc-confounds_timeseries.tsv").
  - compute_done.
  - reflexivity.
Defined.

Lemma functional_table_rows_witness :
  exists table,
    calculate_functional_metrics study_file no_resampling sample_displacements sample_nanmean
      ["01"; "02"] ["rest"] study_layout sample_masks
    = Ok table
    /\ Sorted String.le (index table) /\ NoDup (index table)
    /\ index table = ["sub-01_task-rest"; "sub-02_task-rest"].
Proof.
  eexists. split; [reflexivity|].
  split; [|split; [|reflexivity]].
  - eapply (functional_table_rows study_file no_resampling sample_displacements
              sample_nanmean ["01"; "02"] ["rest"] study_layout sample_masks).
    reflexivity.
  - eapply (functional_table_rows study_file no_resampling sample_displacements
              sample_nanmean ["01"; "02"] ["rest"] study_layout sample_masks).
    reflexivity.
Defined.

Lemma functional_table_joined_witness :
  exists table,
    calculate_functional_metrics study_file no_resampling sample_displacements sample_nanmean
      ["01"; "02"] ["rest"] study_layout sample_masks
    = Ok table
    /\ loc table "sub-02_task-rest" "functional_dice" = Ok (VFloat 0.5)
    /\ loc table "sub-01_task-rest" "functional_dice" = Ok (VFloat 1).
Proof.
  destruct (functional_table_joined study_file no_resampling sample_displacements
              sample_nanmean ["01"; "02"] ["rest"] study_layout sample_masks
              (Nifti small_volume) study_func_score study_scans)
    as (table & Htable & _ & Hcells).
  - reflexivity.
  - reflexivity.
  - compute_done.
  - reflexivity.
  - intros s Hs. apply list_elem_of_In in Hs. simpl in Hs.
    destruct Hs as [<-|[<-|[]]]; (split; [discriminate|split; reflexivity]).
  - exists table. split; [exact Htable|].
    assert (forall s, s ∈ study_scans ->
              loc table (confounds_identifier s.1) "functional_dice"
              = Ok (VFloat (study_func_score s.2))) as Hdice
      by (intros s Hs; apply (Hcells s Hs)).
    split.
    + exact (Hdice _ (list_elem_of_here _ _)).
    + exact (Hdice _ (list_elem_of_further _ _ _ (list_elem_of_here _ _))).
Defined.

Lemma functional_table_without_confounds_witness :
  exists table,
    calculate_functional_metrics study_file no_resampling sample_displacements sample_nanmean
      ["01"; "02"] ["rest"] masks_only_layout sample_masks
    = Ok table
    /\ (columns table).*1 ⊆ ["functional_dice"]
    /\ quality_accessments no_object_sum 0%nat 1%nat {[ 0%nat := table ]}
       = ({[ 0%nat := table ]}, Raise (KeyError "mean_fd_raw")).
Proof.
  eexists. split; [reflexivity|].
  match goal with |- (columns ?t).*1 ⊆ _ /\ _ =>
    destruct (functional_table_without_confounds study_file no_resampling
                sample_displacements sample_nanmean ["01"; "02"] ["rest"]
                masks_only_layout sample_masks t eq_refl eq_refl) as (_ & Hcolumns & Hcall)
  end.
  split; [exact Hcolumns|]. apply Hcall. reflexivity.
Defined.

Lemma quality_accessments_missing_column_witness :
  raises (quality_accessments no_object_sum 1%nat 0%nat sample_store).2
  /\ (quality_accessments no_object_sum 1%nat 0%nat sample_store).1 = sample_store.
Proof.
  apply (quality_accessments_missing_column no_object_sum 1%nat 0%nat sample_store
           "mean_fd_raw"); [compute_done|reflexivity].
Defined.

Lemma pass_func_qc_missing_value_witness :
  exists p,
    getitem ((quality_accessments no_object_sum 0%nat 1%nat incomplete_store).1 !!! 0%nat)
            "pass_func_qc" = Ok p
    /\ p !! 0%nat = Some (VBool false).
Proof.
  apply (pass_func_qc_missing_value no_object_sum 0%nat 1%nat incomplete_store
           [nan] [0.8]%float [0.95]%float 0%nat nan 0.8%float 0.95%float);
    try reflexivity.
  left. reflexivity.
Defined.

Lemma quality_accessments_no_row_witness :
  (quality_accessments no_object_sum 0%nat 1%nat rowless_store).2
  = Raise (KeyError "pass_anat_qc").
Proof.
  rewrite (quality_accessments_no_row no_object_sum 0%nat 1%nat rowless_store []);
    reflexivity.
Defined.

Lemma quality_accessments_table_witness :
  exists metrics pass_all_qc,
    (quality_accessments no_object_sum 0%nat 1%nat sample_store).2 = Ok metrics
    /\ getitem metrics "pass_anat_qc" = Ok [VBool true; VBool true; VBool false]
    /\ getitem metrics "pass_all_qc" = Ok pass_all_qc
    /\ pass_all_qc !! 0%nat = Some (VBool true)
    /\ pass_all_qc !! 1%nat = Some (VBool false).
Proof.
  destruct (quality_accessments_table no_object_sum 0%nat 1%nat sample_store
              [0.3; 0.6; 0.55]%float [0.8; 0.8; 0.8]%float [0.95; 0.95; 0.95]%float
              sample_anatomical_dice sample_pass_qc)
    as (metrics & pass_all_qc & Hcall & _ & Hanat & Hall & Hrows).
  - lia.
  - reflexivity.
  - reflexivity.
  - reflexivity.
  - reflexivity.
  - compute_done.
  - discriminate.
  - intros id Hid. apply list_elem_of_In in Hid. simpl in Hid.
    destruct Hid as [<-|[<-|[<-|[]]]]; split; reflexivity.
  - exists metrics, pass_all_qc. split; [exact Hcall|]. split; [exact Hanat|].
    split; [exact Hall|]. split.
    + apply (Hrows 0%nat "sub-01_task-rest" 0.3%float 0.8%float 0.95%float); reflexivity.
    + apply (Hrows 1%nat "sub-02_task-rest" 0.6%float 0.8%float 0.95%float); reflexivity.
Defined.

Lemma parse_scan_information_no_row_witness :
  (parse_scan_information 0%nat rowless_store).2 = Raise IndexError
  /\ index_name ((parse_scan_information 0%nat rowless_store).1 !!! 0%nat)
     = Some "identifier".
Proof.
  rewrite (parse_scan_information_no_row 0%nat rowless_store); [|reflexivity].
  split; reflexivity.
Defined.

Lemma parse_scan_information_longer_row_witness :
  (parse_scan_information 0%nat ragged_store).2 = Raise ValueError.
Proof.
  apply (parse_scan_information_longer_row 0%nat ragged_store
           "sub-01_task-rest" "sub-02_ses-1_task-rest").
  - reflexivity.
  - compute_done.
  - vm_compute. lia.
Defined.



Lemma get_reference_mask_keys_witness :
  exists reference_masks anat func,
    get_reference_mask sample_templateflow sample_intersect "group" ["01"; "02"] ["rest"]
      study_layout = Ok reference_masks
    /\ reference reference_masks "anat" = Ok anat
    /\ reference reference_masks "func" = Ok func.
Proof.
  eexists. 
  match goal with |- exists anat func, ?f = Ok ?m /\ _ =>
    destruct (get_reference_mask_keys sample_templateflow sample_intersect "group"
                ["01"; "02"] ["rest"] study_layout m) as (_ & anat & func & Hanat & Hfunc)
  end.
  - reflexivity.
  - exists anat, func. split; [reflexivity|]. split; [exact Hanat|exact Hfunc].
Defined.

Lemma subject_of_label_witness : subject_of "sub-01_ses-1_task-rest" = "01".
Proof.
  apply (subject_of_label "01" "_ses-1_task-rest"); [reflexivity|reflexivity|].
  right. by exists "ses-1_task-rest".
Defined.

Lemma scan_identifiers_witness :
  confounds_identifier
    "/data/sub-01/ses-1/func/sub-01_ses-1_task-rest_desc-confounds_timeseries.tsv"
  = "sub-01_ses-1_task-rest"
  /\ mask_identifier
       "/data/sub-01/ses-1/func/sub-01_ses-1_task-rest_space-MNI152NLin2009cAsym_desc-brain_mask.nii.gz"
     = "sub-01_ses-1_task-rest".
Proof.
  apply (scan_identifiers "/data/sub-01/ses-1/func" "/data/sub-01/ses-1/func"
           "sub-01_ses-1_task-rest" "_timeseries.tsv" "_desc-brain_mask.nii.gz");
    reflexivity.
Defined.
